(** * Microplastic detection page: size statistics of [app.py]

  A shallow embedding of the Streamlit script [app.py], from the call to the
  detection API down to the size-category chart, and the properties its
  specification states about it.

  Numbers are the ones Python has at run time: JSON integers are unbounded
  Python [int]s ([Z]), JSON reals and everything NumPy returns are IEEE 754
  binary64 values (Rocq's primitive [float], which has a single NaN, as
  Python cannot tell NaN payloads apart with the operations used here).
  The page is a script, so its blocks (the [# ----- NAME -----] banners
  of the source) are the units of the embedding.  What the script shows
  with [st.*] calls is a trace of [ui_event]s; [st.stop()] and Python
  exceptions end the trace early. *)

From Stdlib Require Import ZArith List Bool Lia String Floats.
From Stdlib Require Uint63.
Import ListNotations.

#[local] Set Warnings "-inexact-float".
#[local] Open Scope Z_scope.

(** ** Python numbers *)

Module Py.

(** A JSON number after [response.json()]: an [int] or a [float]. *)
Inductive num : Type :=
| Int (z : Z)
| Float (f : float).

Inductive exn : Type :=
| OverflowError   (* int too large to convert to float *)
| TypeError.      (* ufunc loop not supported for a Python int beyond 64 bits *)

(** The result of an expression: a value, or a raised exception. *)
Inductive result (A : Type) : Type :=
| Ok (a : A)
| Raise (e : exn).
Arguments Ok {A} a.
Arguments Raise {A} e.

Definition bind {A B : Type} (r : result A) (k : A -> result B) : result B :=
  match r with
  | Ok a => k a
  | Raise e => Raise e
  end.

(** Round-to-nearest-even conversion of an integer to binary64; an integer
    beyond the largest finite value becomes an infinity. *)
Definition Z2float (z : Z) : float :=
  SF2Prim (binary_normalize prec emax z 0 false).

(** [float(z)] for a Python [int] (the implicit conversion of mixed
    arithmetic): raises [OverflowError] rather than returning [inf]. *)
Definition float_of_int (z : Z) : result float :=
  let f := Z2float z in
  if is_infinity f then Raise OverflowError else Ok f.

(** [float(x)]. *)
Definition to_float (x : num) : result float :=
  match x with
  | Int z => float_of_int z
  | Float f => Ok f
  end.

(** [a * b]. *)
Definition mul (a b : num) : result num :=
  match a, b with
  | Int x, Int y => Ok (Int (x * y))
  | Int x, Float g => bind (float_of_int x) (fun f => Ok (Float (f * g)%float))
  | Float f, Int y => bind (float_of_int y) (fun g => Ok (Float (f * g)%float))
  | Float f, Float g => Ok (Float (f * g)%float)
  end.

(** [np.sqrt(x)] of a Python scalar.  A [float] goes through the binary64
    loop (a negative argument gives NaN and a warning, not an exception).
    An [int] is first stored as a 64-bit integer, signed or unsigned, and
    converted to binary64; one that fits neither has no [sqrt] loop. *)
Definition np_sqrt (x : num) : result float :=
  match x with
  | Float f => Ok (sqrt f)
  | Int z =>
      if (- 2 ^ 63 <=? z) && (z <? 2 ^ 64)
      then Ok (sqrt (Z2float z))
      else Raise TypeError
  end.

(** [d.get(key, default)] on a key that may be absent. *)
Definition get {A : Type} (field : option A) (default : A) : A :=
  match field with
  | Some v => v
  | None => default
  end.

(** [min(l)] and [max(l)] of a non-empty list [x :: l]: the builtin keeps
    the first item and replaces it by a later one only when that one
    compares strictly below (above) it. *)
Definition min (x : float) (l : list float) : float :=
  fold_left (fun best item => if (item <? best)%float then item else best) l x.

Definition max (x : float) (l : list float) : float :=
  fold_left (fun best item => if (best <? item)%float then item else best) l x.

(** [sum(l)] of binary64 values: left to right from the integer [0]. *)
Definition sum (l : list float) : float :=
  fold_left (fun acc item => (acc + item)%float) l zero.

(** [sum(p(s) for s in l)]: each [True] adds one. *)
Definition sum_bool (p : float -> bool) (l : list float) : Z :=
  fold_left (fun acc s => acc + (if p s then 1 else 0)) l 0.

(** [len(l)]. *)
Definition len {A : Type} (l : list A) : Z := Z.of_nat (List.length l).

(** The value a 64-bit integer of NumPy holds for the integer [z]: [z]
    itself between [- 2 ^ 63] and [2 ^ 63 - 1], wrapped around otherwise. *)
Definition wrap_int64 (z : Z) : Z := (z + 2 ^ 63) mod 2 ^ 64 - 2 ^ 63.

End Py.


(** ** What the page shows *)

Module St.

(** The f-strings handed to [st.write], with the values they interpolate.
    A [:.1f] field holds the binary64 value that is printed to one decimal. *)
Inductive message : Type :=
| total_line (total_count : Z)
| risk_line (risk_score : Py.num)
| status_line (status : string)
| box_line (i : Z) (width_nm height_nm size_nm : float)
| min_line (min_count : Z)
| avg_line (avg_count : Z)
| max_line (max_count : Z).

(** The bar chart: [ax.bar(labels, counts)], the axis texts, and one
    [ax.text(i, v, str(v))] per bar. *)
Record figure : Type := {
  labels : list string;
  counts : list Z;
  ylabel : string;
  title : string;
  texts : list (Z * Z)
}.

Inductive ui_event : Type :=
| subheader (s : string)
| write (m : message)
| error (s : string)
| text (body : string)
| exception
| info (s : string)
| pyplot (fig : figure).

(** How a run of the script ends. *)
Inductive outcome (A : Type) : Type :=
| Done (a : A)
| Stopped                (* [st.stop()] *)
| Raised (e : Py.exn).   (* an uncaught exception *)
Arguments Done {A} a.
Arguments Stopped {A}.
Arguments Raised {A} e.

(** A script fragment: the events it shows, then how it ends. *)
Definition script (A : Type) : Type := (list ui_event * outcome A)%type.

Definition ret {A : Type} (a : A) : script A := ([], Done a).

Definition bind {A B : Type} (m : script A) (k : A -> script B) : script B :=
  match m with
  | (t, Done a) => let (t', o) := k a in (t ++ t', o)
  | (t, Stopped) => (t, Stopped)
  | (t, Raised e) => (t, Raised e)
  end.

Definition show (ev : ui_event) : script unit := ([ev], Done tt).

Definition stop {A : Type} : script A := ([], Stopped).

(** Evaluating a Python expression inside the script. *)
Definition eval {A : Type} (r : Py.result A) : script A :=
  match r with
  | Py.Ok a => ret a
  | Py.Raise e => ([], Raised e)
  end.

Definition trace {A : Type} (m : script A) : list ui_event := fst m.
Definition result {A : Type} (m : script A) : outcome A := snd m.

End St.

Notation "x <- c1 ;; c2" := (St.bind c1 (fun x => c2))
(at level 61, c1 at next level, right associativity).
Notation "' pat <- c1 ;; c2" :=
(St.bind c1 (fun x => match x with pat => c2 end))
(at level 61, pat pattern, c1 at next level, right associativity).
Notation "c1 ;; c2" := (St.bind c1 (fun _ => c2))
(at level 61, right associativity).

(** ** The page *)

Module App.
Import St.
#[local] Open Scope string_scope.
#[local] Open Scope list_scope.
#[local] Open Scope Z_scope.

(** The [CONFIG] block. *)
Record config : Type := {
  API_URL : string;
  EXAMPLE_DIR : string;
  PIXEL_TO_NM : Py.num;
  RISK_THRESHOLD : Py.num
}.

Definition app_config : config := {|
  API_URL := "https://microplastic-detection-backend.onrender.com/detect";
  EXAMPLE_DIR := "Example_images";
  PIXEL_TO_NM := Py.Int 100;
  RISK_THRESHOLD := Py.Int 15
|}.

(** One entry of ["boxes"]: a JSON object whose keys may be absent. *)
Record box : Type := {
  width : option Py.num;
  height : option Py.num
}.

(** The JSON body of the detection endpoint's answer, keys absent or not.
    ["total_count"] is an integer; the counts it is subtracted from are
    NumPy integers, taken here in the range where they do not wrap. *)
Record detection : Type := {
  total_count : option Z;
  boxes : option (list box);
  status : option string;
  risk_score : option Py.num
}.

(** The arguments of [requests.post]. *)
Record request : Type := {
  url : string;
  file_name : string;
  file_bytes : list Byte.byte;
  content_type : string;
  timeout : Z
}.

(** What [requests.post] does: raise, or return a response. *)
Inductive api_reply : Type :=
| ConnectionFailed
| Response (status_code : Z) (body : string) (json : detection).

(** The body of the [for] loop up to [size_nm]: lines [width_px = ...] to
    [size_nm = np.sqrt(width_nm * height_nm)]. *)
Definition box_size (cfg : config) (b : box) : Py.result (Py.num * Py.num * float) :=
  let width_px := Py.get (width b) (Py.Int 0) in
  let height_px := Py.get (height b) (Py.Int 0) in
  Py.bind (Py.mul width_px (PIXEL_TO_NM cfg)) (fun width_nm =>
  Py.bind (Py.mul height_px (PIXEL_TO_NM cfg)) (fun height_nm =>
  Py.bind (Py.mul width_nm height_nm) (fun area =>
  Py.bind (Py.np_sqrt area) (fun size_nm =>
  Py.Ok (width_nm, height_nm, size_nm))))).

(** A [:.1f] field: an [int] is converted to [float] before it is printed. *)
Definition format_f (x : Py.num) : Py.result float := Py.to_float x.

(** [SIZE CALCULATION]: the loop over [enumerate(boxes, start=1)], from
    index [i] on, appending to [sizes_nm]. *)
Fixpoint size_calculation (cfg : config) (i : Z) (boxes : list box)
    (sizes_nm : list float) : script (list float) :=
  match boxes with
  | [] => ret sizes_nm
  | b :: boxes' =>
      '(width_nm, height_nm, size_nm) <- eval (box_size cfg b) ;;
      let sizes_nm := sizes_nm ++ [size_nm] in
      w <- eval (format_f width_nm) ;;
      h <- eval (format_f height_nm) ;;
      show (write (box_line i w h size_nm)) ;;
      size_calculation cfg (i + 1) boxes' sizes_nm
  end.

(** The variables of the [if sizes_nm:] branch. *)
Record size_stats : Type := {
  min_size : float;
  max_size : float;
  avg_size : float;
  min_thresh : float;
  max_thresh : float;
  min_count : Z;
  max_count : Z;
  avg_count : Z
}.

(** [SIZE STATS]: the assignments of the branch, for the non-empty list
    [s :: rest].  The two counts are 64-bit integers of NumPy, so that
    [avg_count] is computed by two 64-bit subtractions: it is given here as
    the integer difference, which is their result when [residual_fits]
    holds (below); outside that range NumPy wraps the result or refuses
    [total_count]. *)
Definition stats (total_count : Z) (s : float) (rest : list float) : size_stats :=
  let sizes_nm := s :: rest in
  let min_size := Py.min s rest in
  let max_size := Py.max s rest in
  let avg_size := (Py.sum sizes_nm / Py.Z2float (Py.len sizes_nm))%float in
  let min_thresh := (min_size * 1.10)%float in
  let max_thresh := (max_size * 0.90)%float in
  let min_count := Py.sum_bool (fun s => (s <=? min_thresh)%float) sizes_nm in
  let max_count := Py.sum_bool (fun s => (max_thresh <=? s)%float) sizes_nm in
  let avg_count := total_count - min_count - max_count in
  {| min_size := min_size; max_size := max_size; avg_size := avg_size;
     min_thresh := min_thresh; max_thresh := max_thresh;
     min_count := min_count; max_count := max_count; avg_count := avg_count |}.

(** [enumerate(l)] from [i]. *)
Fixpoint enumerate {A : Type} (i : Z) (l : list A) : list (Z * A) :=
  match l with
  | [] => []
  | x :: l' => (i, x) :: enumerate (i + 1) l'
  end.

(** [& GRAPH]: the category counts and the bar chart. *)
Definition graph (st : size_stats) : script unit :=
  show (subheader "📦 Size Category Counts") ;;
  show (write (min_line (min_count st))) ;;
  show (write (avg_line (avg_count st))) ;;
  show (write (max_line (max_count st))) ;;
  let labels := ["Min Size"; "Average Size"; "Max Size"] in
  let counts := [min_count st; avg_count st; max_count st] in
  show (pyplot {| labels := labels; counts := counts; ylabel := "Count";
                  title := "Microplastic Size Distribution (Count-Based)";
                  texts := enumerate 0 counts |}).

(** [SIZE STATS & GRAPH]: [if sizes_nm: ... else: st.info(...)]. *)
Definition size_stats_and_graph (total_count : Z) (sizes_nm : list float) : script unit :=
  match sizes_nm with
  | s :: rest => graph (stats total_count s rest)
  | [] => show (info "No microplastics detected.")
  end.

(** [RESPONSE PARSING] to the end of the script. *)
Definition results (cfg : config) (data : detection) : script unit :=
  let total_count := Py.get (total_count data) 0 in
  let boxes := Py.get (boxes data) [] in
  let status := Py.get (status data) "UNKNOWN" in
  let risk_score := Py.get (risk_score data) (Py.Int 0) in
  show (subheader "📊 Detection Summary") ;;
  show (write (total_line total_count)) ;;
  show (write (risk_line risk_score)) ;;
  show (write (status_line status)) ;;
  show (subheader "📐 Individual Microplastic Sizes (nm)") ;;
  sizes_nm <- size_calculation cfg 1 boxes [] ;;
  size_stats_and_graph total_count sizes_nm.

(** The one outbound call: [requests.post(API_URL, files=..., timeout=60)]. *)
Definition detect_request (cfg : config) (img_bytes : list Byte.byte) : request :=
  {| url := API_URL cfg; file_name := "image.jpg"; file_bytes := img_bytes;
     content_type := "image/jpeg"; timeout := 60 |}.

(** [API CALL]: everything under [if img_bytes is not None:].  The image
    bytes come from the input widgets above it; [post] is what the network
    answers. *)
Definition page (cfg : config) (post : request -> api_reply)
    (img_bytes : option (list Byte.byte)) : script unit :=
  match img_bytes with
  | None => ret tt
  | Some bytes =>
      show (subheader "🚀 Running Detection...") ;;
      match post (detect_request cfg bytes) with
      | ConnectionFailed =>
          show (error "❌ Could not connect to Detection API") ;;
          show exception ;;
          stop
      | Response status_code body data =>
          if negb (status_code =? 200)
          then
            show (error "❌ Error from detection API") ;;
            show (text body) ;;
            stop
          else results cfg data
      end
  end.

(** [total_count] and its two successive differences with counts of at
    most [n] are 64-bit integers: the range in which the subtractions of
    [avg_count] neither fail nor wrap. *)
Definition residual_fits (total_count n : Z) : Prop :=
  - 2 ^ 63 + 2 * n <= total_count < 2 ^ 63.

(** *** Observing a run *)

(** The size the loop appends for a box. *)
Definition size_of (cfg : config) (b : box) : Py.result float :=
  Py.bind (box_size cfg b) (fun '(_, _, size_nm) => Py.Ok size_nm).

(** The variables of the statistics branch, when [results] reaches it. *)
Definition summary (cfg : config) (data : detection) : option size_stats :=
  match size_calculation cfg 1 (Py.get (boxes data) []) [] with
  | (_, Done (s :: rest)) => Some (stats (Py.get (total_count data) 0) s rest)
  | _ => None
  end.

(** The events that show a size, and those that show the summary. *)
Definition is_size_line (ev : ui_event) : bool :=
  match ev with
  | write (box_line _ _ _ _) => true
  | _ => false
  end.

Definition is_statistic (ev : ui_event) : bool :=
  match ev with
  | write (min_line _) | write (avg_line _) | write (max_line _) => true
  | pyplot _ => true
  | _ => false
  end.

(** The same configuration with another risk threshold. *)
Definition with_risk_threshold (r : Py.num) (cfg : config) : config :=
  {| API_URL := API_URL cfg; EXAMPLE_DIR := EXAMPLE_DIR cfg;
     PIXEL_TO_NM := PIXEL_TO_NM cfg; RISK_THRESHOLD := r |}.

(** The events of [results] before the loop. *)
Definition summary_lines (data : detection) : list ui_event :=
  [subheader "📊 Detection Summary";
   write (total_line (Py.get (total_count data) 0));
   write (risk_line (Py.get (risk_score data) (Py.Int 0)));
   write (status_line (Py.get (status data) "UNKNOWN"));
   subheader "📐 Individual Microplastic Sizes (nm)"].

(** *** Sample answers of the detector *)

(** Boxes of a given side, with integer and with real-valued dimensions. *)
Definition square_box (side : Z) : box :=
  {| width := Some (Py.Int side); height := Some (Py.Int side) |}.

Definition float_box (w h : float) : box :=
  {| width := Some (Py.Float w); height := Some (Py.Float h) |}.

Definition three_boxes : list box := [square_box 1; square_box 2; square_box 3].

Definition two_float_boxes : list box := [float_box 1 4; float_box 2.5 2.5].

(** Three boxes of width 1 and height 1, with [total_count = 3]. *)
Definition identical_boxes : detection :=
  {| total_count := Some 3;
     boxes := Some [square_box 1; square_box 1; square_box 1];
     status := None; risk_score := None |}.

(** An answer with no key at all. *)
Definition empty_answer : detection :=
  {| total_count := None; boxes := None; status := None; risk_score := None |}.

End App.

(** ** What the specification says, in its own words *)

Module Spec.

(** Step 1: each dimension times [pixel_to_nm], then the square root of
    the product of the two. *)
Definition size_nm (pixel_to_nm width_px height_px : Py.num) : Py.result float :=
  Py.bind (Py.mul width_px pixel_to_nm) (fun width_nm =>
  Py.bind (Py.mul height_px pixel_to_nm) (fun height_nm =>
  Py.bind (Py.mul width_nm height_nm) Py.np_sqrt)).

(** Step 5: the count of sizes that satisfy a predicate. *)
Definition count (p : float -> bool) (sizes : list float) : Z :=
  Z.of_nat (List.length (filter p sizes)).

(** Step 3: the arithmetic mean.  The sizes are added one after the other,
    in their order, to a total that starts at zero, and the total is divided
    by their number. *)
Fixpoint total_from (acc : float) (sizes : list float) : float :=
  match sizes with
  | [] => acc
  | s :: sizes' => total_from (acc + s) sizes'
  end.

Definition mean (sizes : list float) : float :=
  (total_from 0 sizes / of_uint63 (Uint63.of_Z (Z.of_nat (List.length sizes))))%float.

(** Step 5: the residual, as the 64-bit integers compute it. *)
Definition residual (total_count min_count max_count : Z) : Z :=
  Py.wrap_int64 (Py.wrap_int64 (total_count - min_count) - max_count).

End Spec.

(** ** The order of binary64 values

  The comparison of two values that are not NaN is the lexicographic order
  of their [rank]s: sign class first, then exponent, then mantissa. *)

Module FloatOrder.

Definition rank (x : spec_float) : Z * Z * Z :=
  match x with
  | S754_nan => (0, 0, 0)
  | S754_zero _ => (0, 0, 0)
  | S754_infinity true => (-2, 0, 0)
  | S754_infinity false => (2, 0, 0)
  | S754_finite true m e => (-1, - e, - Z.pos m)
  | S754_finite false m e => (1, e, Z.pos m)
  end.

Definition lex_lt (p q : Z * Z * Z) : Prop :=
  let '(a, b, c) := p in
  let '(a', b', c') := q in
  a < a' \/ (a = a' /\ (b < b' \/ (b = b' /\ c < c'))).

Definition lex_le (p q : Z * Z * Z) : Prop :=
  let '(a, b, c) := p in
  let '(a', b', c') := q in
  a < a' \/ (a = a' /\ (b < b' \/ (b = b' /\ c <= c'))).

Definition not_nan (x : spec_float) : Prop := x <> S754_nan.

Definition ordered (x : float) : Prop := not_nan (Prim2SF x).

Definition key (x : float) : Z * Z * Z := rank (Prim2SF x).

End FloatOrder.

(** ** The binary64 format *)

Module Rounding.

(** The exponent binary64 gives a value whose leading bit has weight
    [2 ^ (k - 1)]: 53 bits of mantissa, and no exponent below [-1074]. *)
Definition fexp64 (k : Z) : Z := Z.max (k - 53) (-1074).

Definition canonical (m : positive) (e : Z) : Prop :=
  fexp64 (Z.pos (digits2_pos m) + e) = e.

End Rounding.

(** ** More observations of the page *)

Module AppMore.
Import St App.

(** A box with its two dimensions exchanged, and an answer with all its
    boxes so. *)
Definition transpose (b : box) : box :=
  {| width := height b; height := width b |}.

Definition transposed (data : detection) : detection :=
  {| total_count := total_count data;
     boxes := option_map (map transpose) (boxes data);
     status := status data; risk_score := risk_score data |}.


(** The lines the loop shows for rows of two converted dimensions and a
    size, numbered from [i]. *)
Fixpoint size_lines (i : Z) (rows : list (float * float * float)) : list ui_event :=
  match rows with
  | [] => []
  | (w, h, s) :: rows' => write (box_line i w h s) :: size_lines (i + 1) rows'
  end.

(** Two runs of the loop that end with the same sizes, or both fail. *)
Definition same_sizes (o o' : outcome (list float)) : Prop :=
  match o, o' with
  | Done a, Done b => a = b
  | Done _, _ | _, Done _ => False
  | _, _ => True
  end.

End AppMore.

(** ** The input widgets

    The part of the script above the API call: the page header, the choice
    of an input method and the widget of the chosen method.  What the user
    does and what the machine holds is a [world]; decoding an image with
    PIL is an oracle of the world, as is what it leaves unread of a file
    object. *)

Module Input.
#[local] Open Scope string_scope.
#[local] Open Scope list_scope.

Inductive event : Type :=
| set_page_config (page_title layout : string)
| title (s : string)
| markdown (s : string)
| radio (label : string) (options : list string)
| camera_input (label : string)
| selectbox (label : string) (options : list string)
| file_uploader (label : string) (types : list string)
| image (caption : string)
| error (s : string).

Inductive exn : Type :=
| UnidentifiedImageError   (* [Image.open] on bytes that are no image *)
| OSError                  (* a directory or a file that cannot be read *)
| TypeError.               (* [os.path.join] with [None] *)

Record world : Type := {
  chosen_mode : string;                       (* what [st.radio] returns *)
  captured : option (list Byte.byte);         (* the buffer of [st.camera_input] *)
  uploaded : option (list Byte.byte);         (* the buffer of [st.file_uploader] *)
  chosen_option : nat;                        (* the entry picked in [st.selectbox] *)
  path_exists : string -> bool;               (* [os.path.exists] *)
  listdir : string -> option (list string);   (* [os.listdir] *)
  read_file : string -> option (list Byte.byte);
  decodes : list Byte.byte -> bool;           (* [Image.open(..).convert("RGB")] succeeds *)
  unread_after_decoding : list Byte.byte -> list Byte.byte
}.

(** How the input part ends: with a value, or with an uncaught exception. *)
Inductive outcome (A : Type) : Type :=
| Got (a : A)
| Failed (e : exn).
Arguments Got {A} a.
Arguments Failed {A} e.

Definition script (A : Type) : Type := (list event * outcome A)%type.

Definition ret {A : Type} (a : A) : script A := ([], Got a).

Definition raise {A : Type} (e : exn) : script A := ([], Failed e).

Definition bind {A B : Type} (m : script A) (k : A -> script B) : script B :=
  match m with
  | (t, Got a) => let (t', o) := k a in (t ++ t', o)
  | (t, Failed e) => (t, Failed e)
  end.

Definition show (ev : event) : script unit := ([ev], Got tt).

#[local] Notation "'let!' x ':=' c1 'in' c2" := (bind c1 (fun x => c2))
  (at level 10, x name, c1 at level 100, c2 at level 200).
#[local] Notation "'do' c1 ; c2" := (bind c1 (fun _ => c2))
  (at level 10, c1 at level 100, c2 at level 200).

(** [sorted(names)]: the names in ascending order of their characters. *)
Fixpoint insert (x : string) (l : list string) : list string :=
  match l with
  | [] => [x]
  | y :: l' => if String.leb x y then x :: l else y :: insert x l'
  end.

Definition sorted (names : list string) : list string :=
  fold_right insert [] names.

(** [os.path.join(a, b)] on a POSIX system. *)
Fixpoint ends_with_slash (s : string) : bool :=
  match s with
  | EmptyString => false
  | String c EmptyString => String c EmptyString =? "/"
  | String _ s' => ends_with_slash s'
  end.

Definition os_path_join (a b : string) : string :=
  if String.prefix "/" b then b
  else if (a =? "") || ends_with_slash a then a ++ b
  else a ++ "/" ++ b.

(** [st.selectbox(label, options)]: the picked entry, the first one when
    the pick is out of range, [None] when there is no entry. *)
Definition select (w : world) (options : list string) : option string :=
  match nth_error options (chosen_option w) with
  | Some name => Some name
  | None => hd_error options
  end.

(** [Image.open(source).convert("RGB")] on the bytes of the source. *)
Definition image_open (w : world) (data : list Byte.byte) : script unit :=
  if decodes w data then ret tt else raise UnidentifiedImageError.

(** [open(path, "rb")] and reading: the bytes of the file. *)
Definition open_file (w : world) (path : string) : script (list Byte.byte) :=
  match read_file w path with
  | Some data => ret data
  | None => raise OSError
  end.

(** The script from [UI] to [UPLOAD IMAGE]; its value is [img_bytes]. *)
Definition input_section (cfg : App.config) (w : world)
    : script (option (list Byte.byte)) :=
  do show (set_page_config "Microplastic Detection System" "wide");
  do show (title "🧪 Microplastic Detection System (YOLOv8)");
  do show (markdown "### 📥 Choose Input Method");
  do show (radio "Select Input Type:"
                 ["Upload Image"; "Use Example Image"; "Capture from Camera"]);
  let input_mode := chosen_mode w in
  if input_mode =? "Capture from Camera" then
    do show (camera_input "Capture image from microscope / camera");
    match captured w with
    | Some camera_image =>
        do image_open w camera_image;
        let img_bytes := camera_image in
        do show (image "Captured Image");
        ret (Some img_bytes)
    | None => ret None
    end
  else if input_mode =? "Use Example Image" then
    if negb (path_exists w (App.EXAMPLE_DIR cfg)) then
      do show (error "Example_images folder not found.");
      ret None
    else
      match listdir w (App.EXAMPLE_DIR cfg) with
      | None => raise OSError
      | Some names =>
          let example_images := sorted names in
          do show (selectbox "Select an example image:" example_images);
          match select w example_images with
          | None => raise TypeError
          | Some selected_image =>
              let img_path := os_path_join (App.EXAMPLE_DIR cfg) selected_image in
              let! data := open_file w img_path in
              do image_open w data;
              do show (image ("Example Image: " ++ selected_image));
              let! img_bytes := open_file w img_path in
              ret (Some img_bytes)
          end
      end
  else
    do show (file_uploader "Upload Microscopic Image" ["jpg"; "jpeg"; "png"]);
    match uploaded w with
    | Some uploaded_file =>
        do image_open w uploaded_file;
        let img_bytes := unread_after_decoding w uploaded_file in
        do show (image "Uploaded Image");
        ret (Some img_bytes)
    | None => ret None
    end.

(** The events every run starts with. *)
Definition header : list event :=
  [set_page_config "Microplastic Detection System" "wide";
   title "🧪 Microplastic Detection System (YOLOv8)";
   markdown "### 📥 Choose Input Method";
   radio "Select Input Type:"
         ["Upload Image"; "Use Example Image"; "Capture from Camera"]].

(** A run of the whole script: the input part failed, or the page below it
    ran on the bytes it produced. *)
Inductive run : Type :=
| InputFailed (shown : list event) (e : exn)
| Ran (shown : list event) (img_bytes : option (list Byte.byte))
      (below : St.script unit).

Definition app (cfg : App.config) (w : world)
    (post : App.request -> App.api_reply) : run :=
  match input_section cfg w with
  | (shown, Got img_bytes) => Ran shown img_bytes (App.page cfg post img_bytes)
  | (shown, Failed e) => InputFailed shown e
  end.

(** A machine without the example folder, and one that holds two images. *)
Definition no_folder : world :=
  {| chosen_mode := "Use Example Image"; captured := None; uploaded := None;
     chosen_option := 0; path_exists := fun _ => false;
     listdir := fun _ => None; read_file := fun _ => None;
     decodes := fun _ => true; unread_after_decoding := fun data => data |}.

Definition two_examples : world :=
  {| chosen_mode := "Use Example Image"; captured := None; uploaded := None;
     chosen_option := 1; path_exists := fun _ => true;
     listdir := fun _ => Some ["b.png"; "a.png"];
     read_file := fun path =>
       if path =? "Example_images/b.png" then Some [Byte.x42] else
       if path =? "Example_images/a.png" then Some [Byte.x41] else None;
     decodes := fun _ => true; unread_after_decoding := fun data => data |}.

Definition bad_capture : world :=
  {| chosen_mode := "Capture from Camera"; captured := Some [Byte.x00];
     uploaded := None; chosen_option := 0; path_exists := fun _ => false;
     listdir := fun _ => None; read_file := fun _ => None;
     decodes := fun _ => false; unread_after_decoding := fun data => data |}.

End Input.

(** * Lemmas *)

(** ** The order of binary64 values *)

Module FloatOrderFacts.
Import FloatOrder.

Ltac cmp_cases :=
  repeat match goal with
  | |- context [Pos.compare_cont Eq ?m ?n] =>
      change (Pos.compare_cont Eq m n) with (Pos.compare m n);
      destruct (Pos.compare_spec m n)
  | |- context [Z.compare ?m ?n] => destruct (Z.compare_spec m n)
  end.

Lemma SFltb_rank (x y : spec_float) :
  not_nan x -> not_nan y -> (SFltb x y = true <-> lex_lt (rank x) (rank y)).
Proof.
  unfold not_nan, SFltb.
  destruct x as [sx | sx | | sx mx ex], y as [sy | sy | | sy my ey];
    try congruence; intros _ _;
    try destruct sx; try destruct sy; cbn; cmp_cases; cbn;
    split; intros; try discriminate; try reflexivity; try lia.
Qed.

Lemma SFleb_rank (x y : spec_float) :
  not_nan x -> not_nan y -> (SFleb x y = true <-> lex_le (rank x) (rank y)).
Proof.
  unfold not_nan, SFleb.
  destruct x as [sx | sx | | sx mx ex], y as [sy | sy | | sy my ey];
    try congruence; intros _ _;
    try destruct sx; try destruct sy; cbn; cmp_cases; cbn;
    split; intros; try discriminate; try reflexivity; try lia.
Qed.

Lemma SFleb_not_nan (x y : spec_float) :
  SFleb x y = true -> not_nan x /\ not_nan y.
Proof.
  unfold not_nan, SFleb.
  destruct x, y; cbn; intros; split; congruence.
Qed.

Lemma SFltb_not_nan (x y : spec_float) :
  SFltb x y = true -> not_nan x /\ not_nan y.
Proof.
  unfold not_nan, SFltb.
  destruct x, y; cbn; intros; split; congruence.
Qed.

(** The same on primitive floats. *)

Lemma ltb_key (x y : float) :
  ordered x -> ordered y -> ((x <? y)%float = true <-> lex_lt (key x) (key y)).
Proof. rewrite ltb_spec. apply SFltb_rank. Qed.

Lemma leb_key (x y : float) :
  ordered x -> ordered y -> ((x <=? y)%float = true <-> lex_le (key x) (key y)).
Proof. rewrite leb_spec. apply SFleb_rank. Qed.

Lemma leb_ordered (x y : float) :
  (x <=? y)%float = true -> ordered x /\ ordered y.
Proof. rewrite leb_spec. apply SFleb_not_nan. Qed.

Lemma ltb_ordered (x y : float) :
  (x <? y)%float = true -> ordered x /\ ordered y.
Proof. rewrite ltb_spec. apply SFltb_not_nan. Qed.

Ltac lex_solve :=
  unfold lex_lt, lex_le in *;
  repeat match goal with
  | |- context [key ?x] =>
      let a := fresh "a" in let b := fresh "b" in let c := fresh "c" in
      destruct (key x) as [[a b] c]
  | H : context [key ?x] |- _ =>
      let a := fresh "a" in let b := fresh "b" in let c := fresh "c" in
      destruct (key x) as [[a b] c]
  end; lia.

Lemma leb_refl (x : float) : ordered x -> (x <=? x)%float = true.
Proof. intros Hx. apply leb_key; auto. lex_solve. Qed.

Lemma leb_trans (x y z : float) :
  (x <=? y)%float = true -> (y <=? z)%float = true -> (x <=? z)%float = true.
Proof.
  intros Hxy Hyz.
  destruct (leb_ordered _ _ Hxy) as [Hx Hy], (leb_ordered _ _ Hyz) as [_ Hz].
  apply leb_key in Hxy, Hyz; auto. apply leb_key; auto. lex_solve.
Qed.

Lemma ltb_leb (x y : float) : (x <? y)%float = true -> (x <=? y)%float = true.
Proof.
  intros Hxy. destruct (ltb_ordered _ _ Hxy) as [Hx Hy].
  apply ltb_key in Hxy; auto. apply leb_key; auto. lex_solve.
Qed.

(** Two ordered values compare one way or the other. *)
Lemma not_ltb_leb (x y : float) :
  ordered x -> ordered y -> (x <? y)%float = false -> (y <=? x)%float = true.
Proof.
  intros Hx Hy Hxy. apply leb_key; auto.
  assert (~ lex_lt (key x) (key y)) as Hn.
  { intros H. apply ltb_key in H; auto. congruence. }
  lex_solve.
Qed.

(** Nothing lies at or below [lo] and at or above [hi] when [lo < hi]. *)
Lemma between_empty (lo hi s : float) :
  (lo <? hi)%float = true ->
  (s <=? lo)%float = true -> (hi <=? s)%float = true -> False.
Proof.
  intros Hlt Hlo Hhi.
  destruct (ltb_ordered _ _ Hlt) as [Hl Hh], (leb_ordered _ _ Hlo) as [Hs _].
  apply ltb_key in Hlt; auto. apply leb_key in Hlo, Hhi; auto. lex_solve.
Qed.

End FloatOrderFacts.

(** ** Facts about the Python operations *)

Module PyFacts.

Lemma SFmul_comm (x y : spec_float) : SF64mul x y = SF64mul y x.
Proof.
  unfold SF64mul.
  destruct x as [sx | sx | | sx mx ex], y as [sy | sy | | sy my ey]; cbn;
    rewrite ?(xorb_comm sy sx); try reflexivity.
  now rewrite (Pos.mul_comm my mx), (Z.add_comm ey ex).
Qed.

Lemma float_mul_comm (x y : float) : (x * y)%float = (y * x)%float.
Proof. apply Prim2SF_inj. rewrite !mul_spec. apply SFmul_comm. Qed.

Lemma mul_comm (a b : Py.num) : Py.mul a b = Py.mul b a.
Proof.
  destruct a as [x | f], b as [y | g]; cbn.
  - now rewrite Z.mul_comm.
  - destruct (Py.float_of_int x); cbn; [rewrite float_mul_comm|]; reflexivity.
  - destruct (Py.float_of_int y); cbn; [rewrite float_mul_comm|]; reflexivity.
  - now rewrite float_mul_comm.
Qed.

(** A product fails in one way only: an [int] operand too large for the
    [float] it is multiplied with. *)
Lemma mul_raises (a b : Py.num) (e : Py.exn) :
  Py.mul a b = Py.Raise e -> e = Py.OverflowError.
Proof.
  destruct a as [x | f], b as [y | g]; cbn; try discriminate;
    unfold Py.float_of_int;
    match goal with |- context [is_infinity ?v] => destruct (is_infinity v) end;
    cbn; congruence.
Qed.

(** [sum_bool] counts the items that satisfy the predicate. *)
Lemma sum_bool_from (p : float -> bool) (l : list float) (acc : Z) :
  fold_left (fun a s => a + (if p s then 1 else 0)) l acc
  = acc + Z.of_nat (List.length (filter p l)).
Proof.
  revert acc. induction l as [| x l IH]; intros acc; cbn [fold_left filter].
  - cbn. lia.
  - rewrite IH. destruct (p x); cbn [List.length]; lia.
Qed.

Lemma sum_bool_count (p : float -> bool) (l : list float) :
  Py.sum_bool p l = Z.of_nat (List.length (filter p l)).
Proof. unfold Py.sum_bool. now rewrite sum_bool_from. Qed.

Lemma sum_bool_pos (p : float -> bool) (l : list float) (x : float) :
  In x l -> p x = true -> 1 <= Py.sum_bool p l.
Proof.
  intros Hin Hp. rewrite sum_bool_count.
  assert (In x (filter p l)) as Hf by (apply filter_In; auto).
  destruct (filter p l); [contradiction | cbn [List.length]; lia].
Qed.

(** Two predicates that no item satisfies together count at most [len l]. *)
Lemma sum_bool_disjoint (p q : float -> bool) (l : list float) :
  (forall x, In x l -> p x = true -> q x = true -> False) ->
  Py.sum_bool p l + Py.sum_bool q l <= Py.len l.
Proof.
  rewrite !sum_bool_count. unfold Py.len.
  induction l as [| x l IH]; intros Hdis; cbn [filter List.length]; [lia|].
  assert (Z.of_nat (List.length (filter p l)) + Z.of_nat (List.length (filter q l))
          <= Z.of_nat (List.length l)) as IH'.
  { apply IH. intros y Hy. apply Hdis. now right. }
  specialize (Hdis x (or_introl eq_refl)).
  destruct (p x), (q x); cbn [List.length]; try lia;
    exfalso; now apply Hdis.
Qed.

(** Conversely, counts that exceed [len l] have an item in both. *)
Lemma sum_bool_overlap (p q : float -> bool) (l : list float) :
  Py.len l < Py.sum_bool p l + Py.sum_bool q l ->
  exists x, In x l /\ p x = true /\ q x = true.
Proof.
  rewrite !sum_bool_count. unfold Py.len.
  induction l as [| x l IH]; cbn [filter List.length]; [lia|].
  destruct (p x) eqn:Hp, (q x) eqn:Hq; cbn [List.length]; intros Hlt;
    try (exists x; now auto with datatypes);
    destruct IH as (y & Hy & Hpy & Hqy); try lia;
    exists y; auto with datatypes.
Qed.

(** [min] and [max] return an item of the list. *)
Lemma min_In (l : list float) (x : float) : In (Py.min x l) (x :: l).
Proof.
  unfold Py.min. revert x.
  induction l as [| y l IH]; intros x; cbn [fold_left]; [now left|].
  destruct (y <? x)%float.
  - right. apply IH.
  - destruct (IH x) as [H | H]; [left | right; right]; exact H.
Qed.

Lemma max_In (l : list float) (x : float) : In (Py.max x l) (x :: l).
Proof.
  unfold Py.max. revert x.
  induction l as [| y l IH]; intros x; cbn [fold_left]; [now left|].
  destruct (x <? y)%float.
  - right. apply IH.
  - destruct (IH x) as [H | H]; [left | right; right]; exact H.
Qed.

(** On values that are all ordered (no NaN), [min] is a lower bound and
    [max] an upper bound. *)
Lemma min_lower (l : list float) (x : float) :
  Forall FloatOrder.ordered (x :: l) ->
  Forall (fun s => (Py.min x l <=? s)%float = true) (x :: l).
Proof.
  unfold Py.min. intros Hord.
  enough (forall seen, Forall FloatOrder.ordered seen ->
            Forall (fun s => (x <=? s)%float = true) seen ->
            Forall (fun s => (fold_left
               (fun best item => if (item <? best)%float then item else best) l x
               <=? s)%float = true) (seen ++ l)) as H.
  { apply (H [x]).
    - constructor; [now inversion Hord | constructor].
    - constructor; [apply FloatOrderFacts.leb_refl; now inversion Hord | constructor]. }
  assert (FloatOrder.ordered x) as Hx by now inversion Hord.
  assert (Forall FloatOrder.ordered l) as Hl by now inversion Hord.
  clear Hord. revert x Hx.
  induction l as [| y l IH]; intros x Hx seen Hseen Hlow; cbn [fold_left].
  - now rewrite app_nil_r.
  - inversion Hl as [| ? ? Hy Hl']; subst.
    replace (seen ++ y :: l) with ((seen ++ [y]) ++ l)
      by now rewrite <- app_assoc.
    destruct (y <? x)%float eqn:Hyx.
    + apply IH; auto.
      * apply Forall_app; split; auto.
      * apply Forall_app; split.
        -- eapply Forall_impl; [| exact Hlow]. cbn. intros s Hs.
           eapply FloatOrderFacts.leb_trans; [| exact Hs].
           now apply FloatOrderFacts.ltb_leb.
        -- constructor; [now apply FloatOrderFacts.leb_refl | constructor].
    + apply IH; auto.
      * apply Forall_app; split; auto.
      * apply Forall_app; split; auto.
        constructor; [now apply FloatOrderFacts.not_ltb_leb | constructor].
Qed.

Lemma max_upper (l : list float) (x : float) :
  Forall FloatOrder.ordered (x :: l) ->
  Forall (fun s => (s <=? Py.max x l)%float = true) (x :: l).
Proof.
  unfold Py.max. intros Hord.
  enough (forall seen, Forall FloatOrder.ordered seen ->
            Forall (fun s => (s <=? x)%float = true) seen ->
            Forall (fun s => (s <=? fold_left
               (fun best item => if (best <? item)%float then item else best) l x)%float
               = true) (seen ++ l)) as H.
  { apply (H [x]).
    - constructor; [now inversion Hord | constructor].
    - constructor; [apply FloatOrderFacts.leb_refl; now inversion Hord | constructor]. }
  assert (FloatOrder.ordered x) as Hx by now inversion Hord.
  assert (Forall FloatOrder.ordered l) as Hl by now inversion Hord.
  clear Hord. revert x Hx.
  induction l as [| y l IH]; intros x Hx seen Hseen Hup; cbn [fold_left].
  - now rewrite app_nil_r.
  - inversion Hl as [| ? ? Hy Hl']; subst.
    replace (seen ++ y :: l) with ((seen ++ [y]) ++ l)
      by now rewrite <- app_assoc.
    destruct (x <? y)%float eqn:Hxy.
    + apply IH; auto.
      * apply Forall_app; split; auto.
      * apply Forall_app; split.
        -- eapply Forall_impl; [| exact Hup]. cbn. intros s Hs.
           eapply FloatOrderFacts.leb_trans; [exact Hs |].
           now apply FloatOrderFacts.ltb_leb.
        -- constructor; [now apply FloatOrderFacts.leb_refl | constructor].
    + apply IH; auto.
      * apply Forall_app; split; auto.
      * apply Forall_app; split; auto.
        constructor; [now apply FloatOrderFacts.not_ltb_leb | constructor].
Qed.

End PyFacts.

(** ** Rounding of binary64 products

  Multiplication rounds the exact product of the mantissas to nearest
  even.  The lemmas below follow that rounding far enough to compare its
  result with one of the factors. *)

Module RoundingFacts.
Import Rounding.

Lemma digits2_bounds (p : positive) :
  2 ^ (Z.pos (digits2_pos p) - 1) <= Z.pos p < 2 ^ Z.pos (digits2_pos p).
Proof.
  induction p as [p IH | p IH |]; cbn [digits2_pos].
  - rewrite Pos2Z.inj_succ; change (Z.pos p~1) with (2 * Z.pos p + 1).
    replace (Z.succ (Z.pos (digits2_pos p)) - 1) with (Z.succ (Z.pos (digits2_pos p) - 1)) by lia.
    rewrite !Z.pow_succ_r by lia.
    destruct IH as [IH1 IH2]. revert IH1 IH2.
    generalize (2 ^ (Z.pos (digits2_pos p) - 1)) (2 ^ Z.pos (digits2_pos p)). lia.
  - rewrite Pos2Z.inj_succ; change (Z.pos p~0) with (2 * Z.pos p).
    replace (Z.succ (Z.pos (digits2_pos p)) - 1) with (Z.succ (Z.pos (digits2_pos p) - 1)) by lia.
    rewrite !Z.pow_succ_r by lia.
    destruct IH as [IH1 IH2]. revert IH1 IH2.
    generalize (2 ^ (Z.pos (digits2_pos p) - 1)) (2 ^ Z.pos (digits2_pos p)). lia.
  - cbn. lia.
Qed.

Lemma Zdigits2_bounds (m : Z) :
  0 < m -> 2 ^ (Zdigits2 m - 1) <= m < 2 ^ Zdigits2 m.
Proof. destruct m; try lia. intros _. apply digits2_bounds. Qed.

Lemma Zdigits2_nonneg (m : Z) : 0 <= Zdigits2 m.
Proof. destruct m; cbn; lia. Qed.

(** An integer below [2 ^ k] has at most [k] bits; one from [2 ^ k] on has
    more than [k]. *)
Lemma Zdigits2_le (m k : Z) : 0 <= m -> 0 <= k -> m < 2 ^ k -> Zdigits2 m <= k.
Proof.
  intros Hm Hk Hlt.
  destruct (Z.eq_dec m 0) as [-> | Hne]; [exact Hk|].
  destruct (Zdigits2_bounds m ltac:(lia)) as [Hlo _].
  destruct (Z_le_gt_dec (Zdigits2 m) k) as [H | H]; [exact H | exfalso].
  assert (2 ^ k <= 2 ^ (Zdigits2 m - 1)) by (apply Z.pow_le_mono_r; lia).
  lia.
Qed.

Lemma Zdigits2_gt (m k : Z) : 0 <= k -> 2 ^ k <= m -> k < Zdigits2 m.
Proof.
  intros Hk Hle.
  assert (0 < m) as Hm by (pose proof (Z.pow_pos_nonneg 2 k); lia).
  destruct (Zdigits2_bounds m Hm) as [_ Hhi].
  destruct (Z_lt_ge_dec k (Zdigits2 m)) as [H | H]; [exact H | exfalso].
  assert (2 ^ Zdigits2 m <= 2 ^ k)
    by (apply Z.pow_le_mono_r; pose proof (Zdigits2_nonneg m); lia).
  lia.
Qed.

(** Shifting right. *)
Lemma shr_1_m (r : shr_record) : 0 <= shr_m r -> shr_m (shr_1 r) = Z.div2 (shr_m r).
Proof.
  destruct r as [m rb sb]. destruct m as [| [p | p |] | p]; cbn; try reflexivity; lia.
Qed.

Lemma shr_m_iter (p : positive) (r : shr_record) :
  0 <= shr_m r -> shr_m (iter_pos shr_1 p r) = shr_m r / 2 ^ Z.pos p.
Proof.
  revert r. induction p as [p IH | p IH |]; intros r Hr; cbn [iter_pos].
  - assert (0 <= shr_m (shr_1 r)) as H1
      by (rewrite shr_1_m, Z.div2_div by exact Hr; apply Z.div_pos; lia).
    assert (0 <= shr_m (iter_pos shr_1 p (shr_1 r))) as H2
      by (rewrite IH by exact H1; apply Z.div_pos; [lia | apply Z.pow_pos_nonneg; lia]).
    rewrite IH by exact H2. rewrite IH by exact H1.
    rewrite shr_1_m, Z.div2_div by exact Hr.
    pose proof (Z.pow_pos_nonneg 2 (Z.pos p)).
    rewrite !Z.div_div by lia.
    f_equal. rewrite Pos2Z.inj_xI.
    replace (2 * Z.pos p + 1) with (1 + Z.pos p + Z.pos p) by lia.
    rewrite !Z.pow_add_r by lia. lia.
  - assert (0 <= shr_m (iter_pos shr_1 p r)) as H2
      by (rewrite IH by exact Hr; apply Z.div_pos; [lia | apply Z.pow_pos_nonneg; lia]).
    rewrite IH by exact H2. rewrite IH by exact Hr.
    pose proof (Z.pow_pos_nonneg 2 (Z.pos p)).
    rewrite !Z.div_div by lia.
    f_equal. replace (Z.pos p~0) with (Z.pos p + Z.pos p) by lia.
    rewrite !Z.pow_add_r by lia. lia.
  - now rewrite shr_1_m, Z.div2_div by exact Hr.
Qed.

Lemma shr_spec (r : shr_record) (e n : Z) :
  0 <= shr_m r ->
  shr_m (fst (shr r e n)) = shr_m r / 2 ^ Z.max 0 n /\
  snd (shr r e n) = e + Z.max 0 n.
Proof.
  intros Hr. destruct n as [| p | p]; cbn [shr fst snd].
  - cbn. rewrite Z.div_1_r. lia.
  - rewrite shr_m_iter by exact Hr. split; [f_equal; f_equal; lia | lia].
  - cbn. rewrite Z.div_1_r. lia.
Qed.

Lemma round_nearest_even_bounds (m : Z) (l : location) :
  m <= round_nearest_even m l <= m + 1.
Proof.
  destruct l as [| []]; cbn; try lia. destruct (Z.even m); lia.
Qed.

(** The result of rounding an exact positive integer mantissa [M] at
    exponent [E]: shift to the format's exponent, round to an integer
    [m2], and shift once more if rounding gained a bit. *)
Lemma binary_round_aux_exact (sx : bool) (M E : Z) :
  0 < M ->
  exists m2 : Z,
    let n1 := Z.max 0 (fexp64 (Zdigits2 M + E) - E) in
    let n2 := Z.max 0 (fexp64 (Zdigits2 m2 + (E + n1)) - (E + n1)) in
    M / 2 ^ n1 <= m2 <= M / 2 ^ n1 + 1 /\
    binary_round_aux prec emax sx M E loc_Exact =
      match m2 / 2 ^ n2 with
      | Z0 => S754_zero sx
      | Z.pos p => if E + n1 + n2 <=? emax - prec
                   then S754_finite sx p (E + n1 + n2) else S754_infinity sx
      | Z.neg _ => S754_nan
      end.
Proof.
  intros HM. unfold binary_round_aux, shr_fexp.
  change (fexp prec emax) with fexp64.
  set (r0 := shr_record_of_loc M loc_Exact).
  assert (shr_m r0 = M) as Hr0 by reflexivity.
  destruct (shr_spec r0 E (fexp64 (Zdigits2 M + E) - E)) as [Hm1 He1]; [lia|].
  destruct (shr r0 E (fexp64 (Zdigits2 M + E) - E)) as [r1 e1].
  cbn [fst snd] in Hm1, He1. rewrite Hr0 in Hm1.
  set (m2 := round_nearest_even (shr_m r1) (loc_of_shr_record r1)).
  exists m2. cbn zeta.
  pose proof (round_nearest_even_bounds (shr_m r1) (loc_of_shr_record r1)) as Hb.
  fold m2 in Hb. rewrite Hm1 in Hb. split; [exact Hb|].
  assert (0 <= m2) as Hm2.
  { assert (0 <= M / 2 ^ Z.max 0 (fexp64 (Zdigits2 M + E) - E))
      by (apply Z.div_pos; [lia | apply Z.pow_pos_nonneg; lia]). lia. }
  change (fexp prec emax) with fexp64.
  set (r2 := shr_record_of_loc m2 loc_Exact).
  assert (shr_m r2 = m2) as Hr2 by reflexivity.
  destruct (shr_spec r2 e1 (fexp64 (Zdigits2 m2 + e1) - e1)) as [Hm3 He3]; [lia|].
  destruct (shr r2 e1 (fexp64 (Zdigits2 m2 + e1) - e1)) as [r3 e3].
  cbn [fst snd] in Hm3, He3. rewrite Hr2 in Hm3.
  subst e1. rewrite Hm3, He3. rewrite Z.add_assoc. reflexivity.
Qed.

Lemma valid_canonical (s : bool) (m : positive) (e : Z) :
  valid_binary (S754_finite s m e) = true ->
  canonical m e /\ e <= emax - prec.
Proof.
  cbn. unfold bounded, canonical_mantissa, canonical.
  change (fexp prec emax) with fexp64.
  intros H. apply andb_prop in H. destruct H as [H1 H2].
  apply Z.eqb_eq in H1. apply Z.leb_le in H2. now split.
Qed.

(** Rounding a value at or above a representable one stays at or above
    it (possibly as an infinity). *)
Lemma round_ge (m : positive) (e M E : Z) :
  canonical m e -> E <= e -> Z.pos m * 2 ^ (e - E) <= M ->
  SFleb (S754_finite false m e)
        (binary_round_aux prec emax false M E loc_Exact) = true.
Proof.
  unfold canonical. intros Hcan HE HM.
  assert (0 < 2 ^ (e - E)) as Hp by (apply Z.pow_pos_nonneg; lia).
  assert (0 < M) as HM0 by nia.
  destruct (binary_round_aux_exact false M E HM0) as (m2 & Hm2 & ->).
  cbn zeta in Hm2.
  set (dm := Z.pos (digits2_pos m)) in *.
  set (d := Zdigits2 M) in *.
  destruct (digits2_bounds m) as [Hmlo _]. fold dm in Hmlo.
  destruct (Zdigits2_bounds M HM0) as [HMlo _]. fold d in HMlo.
  assert (dm + (e - E) <= d) as Hd.
  { assert (dm - 1 + (e - E) < d); [| lia].
    apply Zdigits2_gt; [lia|].
    rewrite Z.pow_add_r by lia. nia. }
  assert (e <= fexp64 (d + E)) as Hf by (unfold fexp64 in *; lia).
  assert (-1074 <= e) as Hemin by (unfold fexp64 in Hcan; lia).
  set (n1 := Z.max 0 (fexp64 (d + E) - E)) in *.
  assert (n1 = fexp64 (d + E) - E) as Hn1 by lia.
  set (e1 := E + n1) in *.
  assert (0 < 2 ^ n1) as Hp1 by (apply Z.pow_pos_nonneg; lia).
  assert (1 <= M / 2 ^ n1 /\ (e1 = e -> Z.pos m <= M / 2 ^ n1)) as [Hm1 Hm1e].
  { split.
    - destruct (Z.eq_dec e1 e) as [Heq | Hne].
      + assert (Z.pos m <= M / 2 ^ n1); [| lia].
        apply Z.div_le_lower_bound; [lia|].
        replace n1 with (e - E) by lia. lia.
      + assert (n1 = d - 53) as Hn by (unfold fexp64 in *; lia).
        apply Z.div_le_lower_bound; [lia|].
        assert (2 ^ n1 <= 2 ^ (d - 1)) by (apply Z.pow_le_mono_r; lia). lia.
    - intros Heq. apply Z.div_le_lower_bound; [lia|].
      replace n1 with (e - E) by lia. lia. }
  assert (1 <= m2) as Hm2pos by lia.
  set (d2 := Zdigits2 m2) in *.
  destruct (Zdigits2_bounds m2 ltac:(lia)) as [Hm2lo _]. fold d2 in Hm2lo.
  set (n2 := Z.max 0 (fexp64 (d2 + e1) - e1)) in *.
  assert (0 < 2 ^ n2) as Hp2 by (apply Z.pow_pos_nonneg; lia).
  assert (1 <= m2 / 2 ^ n2 /\ (e1 + n2 = e -> Z.pos m <= m2 / 2 ^ n2)) as [Hm3 Hm3e].
  { destruct (Z.eq_dec n2 0) as [Hz | Hnz].
    - rewrite Hz. cbn. rewrite Z.div_1_r. split; [lia|]. intros Heq. lia.
    - assert (n2 = d2 - 53) as Hn by (unfold fexp64 in *; lia).
      split; [| lia].
      apply Z.div_le_lower_bound; [lia|].
      assert (2 ^ n2 <= 2 ^ (d2 - 1)) by (apply Z.pow_le_mono_r; lia). lia. }
  assert (e <= e1 + n2) as He3 by lia.
  destruct (m2 / 2 ^ n2) as [| p | p]; try lia.
  destruct (e1 + n2 <=? emax - prec); [| reflexivity].
  unfold SFleb, SFcompare.
  destruct (Z.compare_spec e (e1 + n2)) as [Heq | Hlt | Hgt]; try reflexivity; try lia.
  change (Pos.compare_cont Eq m p) with (Pos.compare m p).
  destruct (Pos.compare_spec m p); try reflexivity.
  specialize (Hm3e (eq_sym Heq)). lia.
Qed.

(** Rounding a positive value below a representable one stays at or
    below it. *)
Lemma round_le (m : positive) (e M E : Z) :
  canonical m e -> e <= emax - prec -> E <= e ->
  0 < M -> M < Z.pos m * 2 ^ (e - E) ->
  SFleb (binary_round_aux prec emax false M E loc_Exact)
        (S754_finite false m e) = true.
Proof.
  unfold canonical. intros Hcan Hmax HE HM0 HM.
  destruct (binary_round_aux_exact false M E HM0) as (m2 & Hm2 & ->).
  cbn zeta in Hm2.
  set (dm := Z.pos (digits2_pos m)) in *.
  set (d := Zdigits2 M) in *.
  destruct (digits2_bounds m) as [_ Hmhi]. fold dm in Hmhi.
  assert (0 < dm) as Hdm by (unfold dm; lia).
  assert (0 < 2 ^ (e - E)) as Hp by (apply Z.pow_pos_nonneg; lia).
  assert (d <= dm + (e - E)) as Hd.
  { apply Zdigits2_le; [lia | lia |].
    rewrite Z.pow_add_r by lia. nia. }
  assert (fexp64 (d + E) <= e) as Hf by (unfold fexp64 in *; lia).
  set (n1 := Z.max 0 (fexp64 (d + E) - E)) in *.
  set (e1 := E + n1) in *.
  assert (e1 <= e) as He1 by lia.
  assert (0 < 2 ^ n1) as Hp1 by (apply Z.pow_pos_nonneg; lia).
  assert (0 < 2 ^ (e - e1)) as Hp1' by (apply Z.pow_pos_nonneg; lia).
  assert (0 <= M / 2 ^ n1) as Hm1 by (apply Z.div_pos; lia).
  assert (M / 2 ^ n1 < Z.pos m * 2 ^ (e - e1)) as Hm1hi.
  { apply Z.div_lt_upper_bound; [lia|].
    replace (2 ^ n1 * (Z.pos m * 2 ^ (e - e1))) with (Z.pos m * 2 ^ (e - E)); [lia|].
    replace (e - E) with (n1 + (e - e1)) by lia.
    rewrite Z.pow_add_r by lia. ring. }
  assert (0 <= m2 <= Z.pos m * 2 ^ (e - e1)) as Hm2b by lia.
  set (d2 := Zdigits2 m2) in *.
  assert (d2 <= dm + (e - e1)) as Hd2.
  { apply Zdigits2_le; [lia | lia |].
    rewrite Z.pow_add_r by lia. nia. }
  assert (fexp64 (d2 + e1) <= e) as Hf2 by (unfold fexp64 in *; lia).
  set (n2 := Z.max 0 (fexp64 (d2 + e1) - e1)) in *.
  assert (e1 + n2 <= e) as He3 by lia.
  assert (0 < 2 ^ n2) as Hp2 by (apply Z.pow_pos_nonneg; lia).
  assert (0 <= m2 / 2 ^ n2) as Hm3 by (apply Z.div_pos; lia).
  assert (e1 + n2 = e -> m2 / 2 ^ n2 <= Z.pos m) as Hm3e.
  { intros Heq. apply Z.div_le_upper_bound; [lia|].
    replace n2 with (e - e1) by lia. lia. }
  destruct (m2 / 2 ^ n2) as [| p | p]; try lia; [reflexivity|].
  replace (e1 + n2 <=? emax - prec) with true by (symmetry; apply Z.leb_le; lia).
  unfold SFleb, SFcompare.
  destruct (Z.compare_spec (e1 + n2) e) as [Heq | Hlt | Hgt]; try reflexivity; try lia.
  change (Pos.compare_cont Eq p m) with (Pos.compare p m).
  destruct (Pos.compare_spec p m); try reflexivity.
  specialize (Hm3e Heq). lia.
Qed.

(** The two factors of the thresholds. *)
Lemma Prim2SF_1_10 : Prim2SF 1.10 = S754_finite false 4953959590107546 (-52).
Proof. reflexivity. Qed.

Lemma Prim2SF_0_90 : Prim2SF 0.90 = S754_finite false 8106479329266893 (-53).
Proof. reflexivity. Qed.

Lemma Prim2SF_zero : Prim2SF 0 = S754_zero false.
Proof. reflexivity. Qed.

(** A non-negative value is at most its product with [1.10] ... *)
Lemma mul_1_10_ge (s : float) :
  (0 <=? s)%float = true -> (s <=? s * 1.10)%float = true.
Proof.
  rewrite !leb_spec, mul_spec, Prim2SF_1_10, Prim2SF_zero.
  pose proof (Prim2SF_valid s) as Hv.
  destruct (Prim2SF s) as [sx | sx | | sx m e]; try destruct sx;
    try discriminate; try reflexivity.
  intros _. destruct (valid_canonical _ _ _ Hv) as [Hcan _].
  unfold SF64mul, SFmul. cbn [xorb].
  apply round_ge; [exact Hcan | lia |].
  replace (e - (e + -52)) with 52 by lia.
  rewrite Pos2Z.inj_mul. change (2 ^ 52) with 4503599627370496. lia.
Qed.

(** ... and at least its product with [0.90]. *)
Lemma mul_0_90_le (s : float) :
  (0 <=? s)%float = true -> (s * 0.90 <=? s)%float = true.
Proof.
  rewrite !leb_spec, mul_spec, Prim2SF_0_90, Prim2SF_zero.
  pose proof (Prim2SF_valid s) as Hv.
  destruct (Prim2SF s) as [sx | sx | | sx m e]; try destruct sx;
    try discriminate; try reflexivity.
  intros _. destruct (valid_canonical _ _ _ Hv) as [Hcan Hmax].
  unfold SF64mul, SFmul. cbn [xorb].
  apply round_le; [exact Hcan | exact Hmax | lia | lia |].
  replace (e - (e + -53)) with 53 by lia.
  rewrite Pos2Z.inj_mul. change (2 ^ 53) with 9007199254740992. lia.
Qed.

End RoundingFacts.

(** ** The size loop *)

Module LoopFacts.
Import St App.

Lemma size_of_spec (cfg : config) (b : box) :
  size_of cfg b
  = Spec.size_nm (PIXEL_TO_NM cfg) (Py.get (width b) (Py.Int 0))
                 (Py.get (height b) (Py.Int 0)).
Proof.
  unfold size_of, box_size, Spec.size_nm.
  destruct (Py.mul (Py.get (width b) (Py.Int 0)) (PIXEL_TO_NM cfg)) as [wn |];
    cbn; [| reflexivity].
  destruct (Py.mul (Py.get (height b) (Py.Int 0)) (PIXEL_TO_NM cfg)) as [hn |];
    cbn; [| reflexivity].
  destruct (Py.mul wn hn) as [area |]; cbn; [| reflexivity].
  destruct (Py.np_sqrt area); reflexivity.
Qed.

(** When the loop runs to its end, it has appended one size per box, in
    the order of the boxes. *)
Lemma size_calculation_done (cfg : config) (boxes : list box) :
  forall i acc t sizes,
    size_calculation cfg i boxes acc = (t, Done sizes) ->
    exists new, sizes = acc ++ new /\
                Forall2 (fun b s => size_of cfg b = Py.Ok s) boxes new.
Proof.
  induction boxes as [| b boxes IH]; intros i acc t sizes Hrun; cbn in Hrun.
  - injection Hrun as _ <-. exists []. split; [now rewrite app_nil_r | constructor].
  - destruct (box_size cfg b) as [[[width_nm height_nm] size_nm] | e] eqn:Hb;
      cbn in Hrun; [| discriminate].
    destruct (format_f width_nm) as [w | e]; cbn in Hrun; [| discriminate].
    destruct (format_f height_nm) as [h | e]; cbn in Hrun; [| discriminate].
    destruct (size_calculation cfg (i + 1) boxes (acc ++ [size_nm]))
      as [t' [sizes' | | e]] eqn:Hrest; cbn in Hrun; try discriminate.
    injection Hrun as _ <-.
    destruct (IH _ _ _ _ Hrest) as (new & -> & Hall).
    exists (size_nm :: new). split; [now rewrite <- app_assoc |].
    constructor; [unfold size_of; now rewrite Hb | exact Hall].
Qed.

(** The measure of a box whose dimensions are [float]s. *)
Lemma box_size_floats (cfg : config) (p w h : float) :
  Py.to_float (PIXEL_TO_NM cfg) = Py.Ok p ->
  box_size cfg (float_box w h)
  = Py.Ok (Py.Float (w * p), Py.Float (h * p), sqrt ((w * p) * (h * p)))%float.
Proof.
  unfold box_size. cbn [float_box width height Py.get].
  destruct (PIXEL_TO_NM cfg) as [z | f]; cbn; intros Hp.
  - rewrite Hp. reflexivity.
  - injection Hp as ->. reflexivity.
Qed.

(** On such boxes the loop always runs to its end. *)
Lemma size_calculation_floats (cfg : config) (p : float) (dims : list (float * float)) :
  Py.to_float (PIXEL_TO_NM cfg) = Py.Ok p ->
  forall i acc,
    result (size_calculation cfg i (map (fun d => float_box (fst d) (snd d)) dims) acc)
    = Done (acc ++ map (fun d => sqrt ((fst d * p) * (snd d * p)))%float dims).
Proof.
  intros Hp. unfold result.
  induction dims as [| [w h] dims IH]; intros i acc; cbn [map fst snd].
  - cbn. now rewrite app_nil_r.
  - cbn [size_calculation]. rewrite (box_size_floats cfg p w h Hp). cbn.
    specialize (IH (i + 1) (acc ++ [sqrt ((w * p) * (h * p))%float])).
    destruct (size_calculation cfg (i + 1)
                (map (fun d => float_box (fst d) (snd d)) dims)
                (acc ++ [sqrt ((w * p) * (h * p))%float])) as [t o].
    cbn in *. rewrite IH. now rewrite <- app_assoc.
Qed.

(** A value that is not NaN is ordered. *)
Lemma is_nan_ordered (x : float) : is_nan x = false -> FloatOrder.ordered x.
Proof.
  unfold is_nan, FloatOrder.ordered, FloatOrder.not_nan.
  rewrite eqb_spec. intros H Hnan. rewrite Hnan in H. discriminate.
Qed.

End LoopFacts.

(** ** The mean and the residual *)

Module SummaryFacts.

Lemma wrap_int64_small (z : Z) :
  - 2 ^ 63 <= z < 2 ^ 63 -> Py.wrap_int64 z = z.
Proof.
  intros Hz. unfold Py.wrap_int64.
  rewrite Z.mod_small; [lia |].
  change (2 ^ 64) with (2 * 2 ^ 63). lia.
Qed.

(** In the range of [residual_fits] the two 64-bit subtractions are the
    integer ones. *)
Lemma residual_exact (total n a b : Z) :
  App.residual_fits total n -> 0 <= a <= n -> 0 <= b <= n ->
  Spec.residual total a b = total - a - b.
Proof.
  unfold App.residual_fits, Spec.residual. intros Hfits Ha Hb.
  rewrite (wrap_int64_small (total - a)) by lia.
  apply wrap_int64_small. lia.
Qed.

Lemma sum_bool_bounds (p : float -> bool) (l : list float) :
  0 <= Py.sum_bool p l <= Py.len l.
Proof.
  rewrite PyFacts.sum_bool_count. unfold Py.len.
  pose proof (filter_length_le p l). lia.
Qed.

(** [sum] adds the items in their order. *)
Lemma sum_total_from (l : list float) : Py.sum l = Spec.total_from 0 l.
Proof.
  unfold Py.sum. change zero with 0%float. generalize 0%float.
  induction l as [| x l IH]; intros acc; cbn [fold_left Spec.total_from];
    [reflexivity | apply IH].
Qed.

(** The conversion of a count to binary64 is the machine's. *)
Lemma Z2float_count (n : Z) :
  0 <= n < 2 ^ 63 -> Py.Z2float n = of_uint63 (Uint63.of_Z n).
Proof.
  intros Hn. unfold Py.Z2float.
  rewrite <- (SF2Prim_Prim2SF (of_uint63 (Uint63.of_Z n))).
  rewrite of_uint63_spec, Uint63.of_Z_spec.
  rewrite Z.mod_small; [reflexivity |].
  change Uint63.wB with (2 ^ 63). lia.
Qed.

Lemma mean_spec (l : list float) :
  Py.len l < 2 ^ 63 ->
  (Py.sum l / Py.Z2float (Py.len l))%float = Spec.mean l.
Proof.
  intros Hlen. unfold Spec.mean.
  rewrite sum_total_from, Z2float_count; [reflexivity |].
  unfold Py.len in *. lia.
Qed.

End SummaryFacts.

(** * The properties of the specification *)

Import St App.

(** C2. When the size loop runs to its end on [boxes], the list of sizes
    has one entry per box, in the order of the boxes, and the entry of a box
    is [sqrt((width_px * pixel_to_nm) * (height_px * pixel_to_nm))] in
    Python's arithmetic, an absent dimension counting as [0].  For a box
    with [float] dimensions this is the binary64 square root of the product
    of the two converted dimensions, [pixel_to_nm] taken as a [float]; and
    on boxes that all have [float] dimensions the loop does run to its end,
    with exactly these sizes. *)
Theorem C2_one_size_per_box_in_order (cfg : config) :
  (forall boxes t sizes,
     size_calculation cfg 1 boxes [] = (t, Done sizes) ->
     List.length sizes = List.length boxes /\
     (forall n b, nth_error boxes n = Some b ->
        exists s, nth_error sizes n = Some s /\
          Spec.size_nm (PIXEL_TO_NM cfg) (Py.get (width b) (Py.Int 0))
                       (Py.get (height b) (Py.Int 0)) = Py.Ok s) /\
     (forall n w h p,
        nth_error boxes n = Some (float_box w h) ->
        Py.to_float (PIXEL_TO_NM cfg) = Py.Ok p ->
        nth_error sizes n = Some (sqrt ((w * p) * (h * p)))%float)) /\
  (forall p dims,
     Py.to_float (PIXEL_TO_NM cfg) = Py.Ok p ->
     result (size_calculation cfg 1
               (map (fun d => float_box (fst d) (snd d)) dims) [])
     = Done (map (fun d => sqrt ((fst d * p) * (snd d * p)))%float dims)).
Proof.
  split.
  - intros boxes t sizes Hrun.
    destruct (LoopFacts.size_calculation_done _ _ _ _ _ _ Hrun) as (new & -> & Hall).
    cbn [app] in *. clear Hrun.
    assert (forall n b, nth_error boxes n = Some b ->
              exists s, nth_error new n = Some s /\ size_of cfg b = Py.Ok s) as Hnth.
    { induction Hall as [| b s boxes new Hbs Hall IH]; intros n b' Hn.
      - destruct n; discriminate.
      - destruct n as [| n]; cbn in *.
        + injection Hn as <-. now exists s.
        + now apply IH. }
    split; [symmetry; eapply Forall2_length; exact Hall | split].
    + intros n b Hn. destruct (Hnth n b Hn) as (s & Hs & Hsize).
      exists s. split; [exact Hs |]. now rewrite <- LoopFacts.size_of_spec.
    + intros n w h p Hn Hp. destruct (Hnth n _ Hn) as (s & Hs & Hsize).
      unfold size_of in Hsize.
      rewrite (LoopFacts.box_size_floats cfg p w h Hp) in Hsize.
      cbn in Hsize. injection Hsize as <-. exact Hs.
  - intros p dims Hp.
    exact (LoopFacts.size_calculation_floats cfg p dims Hp 1 []).
Qed.

Lemma C2_one_size_per_box_in_order_witness :
  (List.length [200; 250]%float = List.length two_float_boxes /\
   (forall n b, nth_error two_float_boxes n = Some b ->
      exists s, nth_error [200; 250]%float n = Some s /\
        Spec.size_nm (PIXEL_TO_NM app_config) (Py.get (width b) (Py.Int 0))
                     (Py.get (height b) (Py.Int 0)) = Py.Ok s) /\
   (forall n w h p,
      nth_error two_float_boxes n = Some (float_box w h) ->
      Py.to_float (PIXEL_TO_NM app_config) = Py.Ok p ->
      nth_error [200; 250]%float n = Some (sqrt ((w * p) * (h * p)))%float)) /\
  result (size_calculation app_config 1
            (map (fun d => float_box (fst d) (snd d)) [(1, 4); (2.5, 2.5)]%float) [])
  = Done (map (fun d => sqrt ((fst d * 100) * (snd d * 100)))%float
              [(1, 4); (2.5, 2.5)]%float).
Proof.
  destruct (C2_one_size_per_box_in_order app_config) as [Hdone Htotal].
  split.
  - apply (Hdone two_float_boxes
             (trace (size_calculation app_config 1 two_float_boxes []))).
    reflexivity.
  - apply (Htotal 100%float [(1, 4); (2.5, 2.5)]%float). reflexivity.
Defined.

(** C1. For a non-empty box sequence whose sizes were computed, and a
    [total_count] in the 64-bit range of the counts, the page takes the
    statistics branch, and the variables of that branch are: [min_size] and
    [max_size] the least and the greatest of the sizes (items of the list
    that bound it, the sizes being comparable, that is without NaN),
    [avg_size] the arithmetic mean (the sizes added up in their order, the
    total divided by their number), the thresholds [min_size * 1.10] and
    [max_size * 0.90], [min_count] the number of sizes [<= min_thresh],
    [max_count] the number of sizes [>= max_thresh], and [avg_count] the
    residual [total_count - min_count - max_count], which is what the two
    64-bit subtractions of the counts give. *)
Theorem C1_summary_formulas (cfg : config) (total : Z) (boxes : list box)
    (t : list ui_event) (sizes : list float) :
  boxes <> [] ->
  residual_fits total (Py.len boxes) ->
  size_calculation cfg 1 boxes [] = (t, Done sizes) ->
  exists s rest,
    sizes = s :: rest /\
    size_stats_and_graph total sizes = graph (stats total s rest) /\
    let st := stats total s rest in
    In (min_size st) sizes /\ In (max_size st) sizes /\
    (Forall (fun x => is_nan x = false) sizes ->
     Forall (fun x => (min_size st <=? x)%float = true
                      /\ (x <=? max_size st)%float = true) sizes) /\
    avg_size st = Spec.mean sizes /\
    min_thresh st = (min_size st * 1.10)%float /\
    max_thresh st = (max_size st * 0.90)%float /\
    min_count st = Spec.count (fun x => (x <=? min_thresh st)%float) sizes /\
    max_count st = Spec.count (fun x => (max_thresh st <=? x)%float) sizes /\
    avg_count st = total - min_count st - max_count st /\
    avg_count st = Spec.residual total (min_count st) (max_count st).
Proof.
  intros Hne Hfits Hrun.
  destruct (LoopFacts.size_calculation_done _ _ _ _ _ _ Hrun) as (new & -> & Hall).
  cbn [app] in *.
  assert (Py.len new = Py.len boxes) as Hlen
    by (unfold Py.len; f_equal; symmetry; eapply Forall2_length; exact Hall).
  destruct Hall as [| b s boxes' rest Hbs Hall]; [congruence |].
  exists s, rest. split; [reflexivity | split; [reflexivity |]].
  cbn zeta. unfold stats; cbn [min_size max_size avg_size min_thresh max_thresh
                                min_count max_count avg_count].
  split; [apply PyFacts.min_In |].
  split; [apply PyFacts.max_In |].
  split.
  { intros Hnan.
    assert (Forall FloatOrder.ordered (s :: rest)) as Hord
      by (eapply Forall_impl; [| exact Hnan]; apply LoopFacts.is_nan_ordered).
    pose proof (PyFacts.min_lower rest s Hord) as Hlo.
    pose proof (PyFacts.max_upper rest s Hord) as Hup.
    rewrite Forall_forall in *. intros x Hx. split; auto. }
  split.
  { apply SummaryFacts.mean_spec. unfold residual_fits in Hfits.
    rewrite Hlen. pose proof (Zle_0_nat (List.length (b :: boxes'))).
    unfold Py.len in *. lia. }
  split; [reflexivity |].
  split; [reflexivity |].
  split; [apply PyFacts.sum_bool_count |].
  split; [apply PyFacts.sum_bool_count |].
  split; [reflexivity |].
  symmetry. apply SummaryFacts.residual_exact with (n := Py.len (b :: boxes'));
    [exact Hfits | rewrite <- Hlen; apply SummaryFacts.sum_bool_bounds
     | rewrite <- Hlen; apply SummaryFacts.sum_bool_bounds].
Qed.

Lemma C1_summary_formulas_witness :
  exists s rest,
    [100; 200; 300]%float = s :: rest /\
    size_stats_and_graph 3 [100; 200; 300]%float = graph (stats 3 s rest) /\
    let st := stats 3 s rest in
    In (min_size st) [100; 200; 300]%float /\
    In (max_size st) [100; 200; 300]%float /\
    (Forall (fun x => is_nan x = false) [100; 200; 300]%float ->
     Forall (fun x => (min_size st <=? x)%float = true
                      /\ (x <=? max_size st)%float = true)
            [100; 200; 300]%float) /\
    avg_size st = Spec.mean [100; 200; 300]%float /\
    min_thresh st = (min_size st * 1.10)%float /\
    max_thresh st = (max_size st * 0.90)%float /\
    min_count st
    = Spec.count (fun x => (x <=? min_thresh st)%float) [100; 200; 300]%float /\
    max_count st
    = Spec.count (fun x => (max_thresh st <=? x)%float) [100; 200; 300]%float /\
    avg_count st = 3 - min_count st - max_count st /\
    avg_count st = Spec.residual 3 (min_count st) (max_count st).
Proof.
  apply (C1_summary_formulas app_config 3 three_boxes
           (trace (size_calculation app_config 1 three_boxes []))).
  - discriminate.
  - unfold residual_fits. cbn. lia.
  - reflexivity.
Defined.

(** C3. For a non-empty list of sizes and [total_count] equal to its
    length: [min_count + max_count] exceeds [total_count] only when
    [min_thresh >= max_thresh], and when [min_thresh < max_thresh] the three
    counts add up to [total_count], the residual [avg_count] being then the
    number of sizes in neither extreme bucket and so not negative. *)
Theorem C3_counts_against_total (total : Z) (s : float) (rest : list float) :
  total = Py.len (s :: rest) ->
  let st := stats total s rest in
  (total < min_count st + max_count st ->
   (max_thresh st <=? min_thresh st)%float = true) /\
  ((min_thresh st <? max_thresh st)%float = true ->
   min_count st + avg_count st + max_count st = total /\ 0 <= avg_count st).
Proof.
  intros Htotal. cbn zeta.
  unfold stats; cbn [min_thresh max_thresh min_count max_count avg_count].
  set (lo := (Py.min s rest * 1.10)%float).
  set (hi := (Py.max s rest * 0.90)%float).
  split.
  - intros Hover. rewrite Htotal in Hover.
    destruct (PyFacts.sum_bool_overlap _ _ _ Hover) as (x & _ & Hlo & Hhi).
    eapply FloatOrderFacts.leb_trans; eassumption.
  - intros Hlt. split; [lia |].
    pose proof (PyFacts.sum_bool_disjoint
                  (fun x => (x <=? lo)%float) (fun x => (hi <=? x)%float) (s :: rest)) as Hdis.
    cbn beta in Hdis.
    assert (Py.sum_bool (fun x => (x <=? lo)%float) (s :: rest)
            + Py.sum_bool (fun x => (hi <=? x)%float) (s :: rest)
            <= Py.len (s :: rest)) as Hle.
    { apply Hdis. intros x _ Hlo Hhi.
      exact (FloatOrderFacts.between_empty lo hi x Hlt Hlo Hhi). }
    lia.
Qed.

Lemma C3_counts_against_total_witness :
  let st := stats 3 100 [200; 300]%float in
  (3 < min_count st + max_count st ->
   (max_thresh st <=? min_thresh st)%float = true) /\
  ((min_thresh st <? max_thresh st)%float = true ->
   min_count st + avg_count st + max_count st = 3 /\ 0 <= avg_count st).
Proof.
  apply (C3_counts_against_total 3 100%float [200; 300]%float).
  reflexivity.
Defined.

(** C10. For a non-empty list of sizes that are all [>= 0], both extreme
    buckets are non-empty: the least size is [<=] its own product with
    [1.10], and the greatest is [>=] its own product with [0.90]. *)
Theorem C10_extreme_buckets_not_empty (total : Z) (s : float) (rest : list float) :
  Forall (fun x => (0 <=? x)%float = true) (s :: rest) ->
  1 <= min_count (stats total s rest) /\ 1 <= max_count (stats total s rest).
Proof.
  intros Hpos. rewrite Forall_forall in Hpos.
  unfold stats; cbn [min_count max_count]. split.
  - apply PyFacts.sum_bool_pos with (x := Py.min s rest).
    + apply PyFacts.min_In.
    + apply RoundingFacts.mul_1_10_ge, Hpos, PyFacts.min_In.
  - apply PyFacts.sum_bool_pos with (x := Py.max s rest).
    + apply PyFacts.max_In.
    + apply RoundingFacts.mul_0_90_le, Hpos, PyFacts.max_In.
Qed.

Lemma C10_extreme_buckets_not_empty_witness :
  1 <= min_count (stats 3 100 [200; 300]%float)
  /\ 1 <= max_count (stats 3 100 [200; 300]%float).
Proof.
  apply (C10_extreme_buckets_not_empty 3 100%float [200; 300]%float).
  repeat constructor.
Defined.

(** C4, as the code has it.  For three boxes of width 1 and height 1,
    [pixel_to_nm = 100] and [total_count = 3]: all sizes are [100];
    [min_thresh] is the binary64 product [100 * 1.10], which is
    [110.00000000000001] and not [110]; [max_thresh] is [90]; every size
    satisfies both bucket predicates, so [min_count = 3], [max_count = 3] and
    [avg_count = 3 - 3 - 3 = -3], which the page shows unclamped. *)
Theorem C4_identical_boxes_negative_residual :
  result (size_calculation app_config 1 (Py.get (boxes identical_boxes) []) [])
  = Done [100; 100; 100]%float /\
  summary app_config identical_boxes
  = Some {| min_size := 100; max_size := 100; avg_size := 100;
            min_thresh := 110.00000000000001; max_thresh := 90;
            min_count := 3; max_count := 3; avg_count := -3 |} /\
  (100 * 1.10)%float = 110.00000000000001%float /\
  (90 <=? 110.00000000000001)%float = true /\
  Forall (fun x => (x <=? 110.00000000000001)%float = true
                   /\ (90 <=? x)%float = true) [100; 100; 100]%float /\
  In (write (avg_line (-3))) (trace (results app_config identical_boxes)) /\
  result (results app_config identical_boxes) = Done tt.
Proof.
  repeat split; try reflexivity.
  - repeat constructor.
  - vm_compute. tauto.
Qed.

(** The threshold of that scenario is not the [110] of exact arithmetic. *)
Lemma C4_min_thresh_is_not_110 :
  option_map min_thresh (summary app_config identical_boxes) <> Some 110%float.
Proof.
  intros H.
  apply (f_equal (fun o => match o with
                           | Some x => (x =? 110)%float
                           | None => false
                           end)) in H.
  vm_compute in H. discriminate.
Qed.

(** C5. When the answer has no box, the page shows the summary lines and
    then "No microplastics detected.": the statistics branch is not taken,
    so there is no summary, no count line and no chart. *)
Theorem C5_no_boxes_no_statistics (cfg : config) (data : detection) :
  Py.get (boxes data) [] = [] ->
  results cfg data
  = (summary_lines data ++ [info "No microplastics detected."], Done tt) /\
  summary cfg data = None /\
  Forall (fun ev => is_statistic ev = false /\ is_size_line ev = false)
         (trace (results cfg data)).
Proof.
  intros Hempty. unfold results, summary, summary_lines. rewrite Hempty. cbn.
  repeat split; repeat constructor.
Qed.

Lemma C5_no_boxes_no_statistics_witness :
  results app_config empty_answer
  = (summary_lines empty_answer ++ [info "No microplastics detected."], Done tt) /\
  summary app_config empty_answer = None /\
  Forall (fun ev => is_statistic ev = false /\ is_size_line ev = false)
         (trace (results app_config empty_answer)).
Proof.
  apply (C5_no_boxes_no_statistics app_config empty_answer). reflexivity.
Defined.

(** C6. The size of a box does not change when its width and height are
    exchanged, whatever [pixel_to_nm] is: the same value, or the same
    exception. *)
Theorem C6_size_symmetric (cfg : config) (w h : option Py.num) :
  size_of cfg {| width := w; height := h |}
  = size_of cfg {| width := h; height := w |}.
Proof.
  rewrite !LoopFacts.size_of_spec. cbn [width height]. unfold Spec.size_nm.
  destruct (Py.mul (Py.get w (Py.Int 0)) (PIXEL_TO_NM cfg)) as [wn | e1] eqn:Hw;
    destruct (Py.mul (Py.get h (Py.Int 0)) (PIXEL_TO_NM cfg)) as [hn | e2] eqn:Hh;
    cbn; try reflexivity.
  - now rewrite PyFacts.mul_comm.
  - apply PyFacts.mul_raises in Hw, Hh. congruence.
Qed.

(** C7. A key missing from the answer is replaced by its default and
    nothing fails: the page opens with the summary lines of every answer,
    showing [0] for a missing ["total_count"], [0] for a missing
    ["risk_score"] and ["UNKNOWN"] for a missing ["status"]; an answer
    without ["boxes"] shows "No microplastics detected." and ends normally;
    a box without ["width"] or ["height"] is measured with that dimension
    equal to [0], and a box without both always has a size. *)
Theorem C7_missing_keys_default (cfg : config) :
  (forall data, exists t o, results cfg data = (summary_lines data ++ t, o)) /\
  (forall data, total_count data = None ->
     nth_error (summary_lines data) 1 = Some (write (total_line 0))) /\
  (forall data, risk_score data = None ->
     nth_error (summary_lines data) 2 = Some (write (risk_line (Py.Int 0)))) /\
  (forall data, status data = None ->
     nth_error (summary_lines data) 3 = Some (write (status_line "UNKNOWN"))) /\
  (forall data, boxes data = None ->
     results cfg data
     = (summary_lines data ++ [info "No microplastics detected."], Done tt)) /\
  (forall h, box_size cfg {| width := None; height := h |}
             = box_size cfg {| width := Some (Py.Int 0); height := h |}) /\
  (forall w, box_size cfg {| width := w; height := None |}
             = box_size cfg {| width := w; height := Some (Py.Int 0) |}) /\
  (exists width_nm height_nm size_nm,
     box_size cfg {| width := None; height := None |}
     = Py.Ok (width_nm, height_nm, size_nm)) /\
  box_size app_config {| width := None; height := None |}
  = Py.Ok (Py.Int 0, Py.Int 0, 0%float).
Proof.
  repeat split; try reflexivity.
  - intros data. unfold results, summary_lines. cbn.
    destruct (size_calculation cfg 1 (Py.get (boxes data) []) [])
      as [t [sizes | | e]]; cbn; try (eexists; eexists; reflexivity).
    destruct (size_stats_and_graph (Py.get (total_count data) 0) sizes) as [t' o].
    eexists; eexists; reflexivity.
  - intros data Hnone. unfold summary_lines. now rewrite Hnone.
  - intros data Hnone. unfold summary_lines. now rewrite Hnone.
  - intros data Hnone. unfold summary_lines. now rewrite Hnone.
  - intros data Hnone. unfold results, summary_lines. now rewrite Hnone.
  - unfold box_size. cbn.
    destruct (PIXEL_TO_NM cfg) as [z | f]; cbn; repeat eexists.
Qed.

Lemma C7_missing_keys_default_witness :
  results app_config empty_answer
  = ([subheader "📊 Detection Summary";
      write (total_line 0);
      write (risk_line (Py.Int 0));
      write (status_line "UNKNOWN");
      subheader "📐 Individual Microplastic Sizes (nm)";
      info "No microplastics detected."], Done tt).
Proof.
  destruct (C7_missing_keys_default app_config) as (_ & _ & _ & _ & H & _).
  exact (H empty_answer eq_refl).
Defined.

(** C8. When the call to the detection endpoint fails, or its answer is
    not a 200, the script stops at once: the page shows the error and
    neither a size, nor a count, nor the chart. *)
Theorem C8_failed_call_stops (cfg : config) (post : request -> api_reply)
    (img_bytes : list Byte.byte) :
  (post (detect_request cfg img_bytes) = ConnectionFailed \/
   exists status_code body data,
     post (detect_request cfg img_bytes) = Response status_code body data
     /\ status_code <> 200) ->
  result (page cfg post (Some img_bytes)) = Stopped /\
  Forall (fun ev => is_size_line ev = false /\ is_statistic ev = false)
         (trace (page cfg post (Some img_bytes))).
Proof.
  intros [Hfail | (status_code & body & data & Hreply & Hcode)];
    unfold page; [rewrite Hfail | rewrite Hreply].
  - cbn. repeat split; repeat constructor.
  - apply Z.eqb_neq in Hcode. rewrite Hcode. cbn.
    repeat split; repeat constructor.
Qed.

Lemma C8_failed_call_stops_witness :
  result (page app_config (fun _ => Response 500 "Internal Server Error" empty_answer)
               (Some [])) = Stopped /\
  Forall (fun ev => is_size_line ev = false /\ is_statistic ev = false)
         (trace (page app_config
                      (fun _ => Response 500 "Internal Server Error" empty_answer)
                      (Some []))).
Proof.
  apply (C8_failed_call_stops app_config
           (fun _ => Response 500 "Internal Server Error" empty_answer) []).
  right. exists 500, "Internal Server Error"%string, empty_answer.
  split; [reflexivity | discriminate].
Defined.

(** C9. The risk threshold is inert: with any other value of
    [RISK_THRESHOLD] the page makes the same request and shows the same
    events, and the sizes and the summary are the same. *)
Theorem C9_risk_threshold_inert (cfg : config) (r : Py.num) :
  (forall post img_bytes,
     page (with_risk_threshold r cfg) post img_bytes = page cfg post img_bytes) /\
  (forall i boxes acc,
     size_calculation (with_risk_threshold r cfg) i boxes acc
     = size_calculation cfg i boxes acc) /\
  (forall data, summary (with_risk_threshold r cfg) data = summary cfg data).
Proof.
  assert (forall bs i acc,
            size_calculation (with_risk_threshold r cfg) i bs acc
            = size_calculation cfg i bs acc) as Hloop.
  { intros bs. induction bs as [| b bs IH]; intros i acc; cbn; [reflexivity |].
    change (box_size (with_risk_threshold r cfg) b) with (box_size cfg b).
    destruct (box_size cfg b) as [[[width_nm height_nm] size_nm] | e]; cbn;
      [| reflexivity].
    destruct (format_f width_nm); cbn; [| reflexivity].
    destruct (format_f height_nm); cbn; [| reflexivity].
    now rewrite IH. }
  assert (forall data, results (with_risk_threshold r cfg) data = results cfg data)
    as Hresults.
  { intros data. unfold results. now rewrite Hloop. }
  repeat split.
  - intros post [img_bytes |]; [| reflexivity]. unfold page.
    change (detect_request (with_risk_threshold r cfg) img_bytes)
      with (detect_request cfg img_bytes).
    destruct (post (detect_request cfg img_bytes)) as [| status_code body data];
      [reflexivity |].
    destruct (negb (status_code =? 200)); [reflexivity |].
    now rewrite Hresults.
  - intros i boxes acc. apply Hloop.
  - intros data. unfold summary. now rewrite Hloop.
Qed.

(** * More properties of the script *)

(** ** Sizes that are NaN *)

Module NanFacts.

(** A value is NaN exactly when its specification is. *)
Lemma SFeqb_refl (x : spec_float) : x <> S754_nan -> SFeqb x x = true.
Proof.
  unfold SFeqb, SFcompare.
  destruct x as [s | s | | s m e]; try congruence; intros _;
    try (now destruct s).
  rewrite Z.compare_refl.
  change (Pos.compare_cont Eq m m) with (Pos.compare m m).
  rewrite Pos.compare_refl. now destruct s.
Qed.

Lemma is_nan_spec (x : float) : is_nan x = true <-> Prim2SF x = S754_nan.
Proof.
  unfold is_nan. rewrite eqb_spec. split.
  - intros H. destruct (Prim2SF x) eqn:Hx; try reflexivity;
      rewrite SFeqb_refl in H by congruence; discriminate.
  - intros ->. reflexivity.
Qed.

Lemma ltb_nan_l (x y : float) : is_nan x = true -> (x <? y)%float = false.
Proof. rewrite is_nan_spec, ltb_spec. intros ->. reflexivity. Qed.

Lemma ltb_nan_r (x y : float) : is_nan y = true -> (x <? y)%float = false.
Proof.
  rewrite is_nan_spec, ltb_spec. intros ->. unfold SFltb, SFcompare.
  now destruct (Prim2SF x).
Qed.

Lemma leb_nan_l (x y : float) : is_nan x = true -> (x <=? y)%float = false.
Proof. rewrite is_nan_spec, leb_spec. intros ->. reflexivity. Qed.

Lemma leb_nan_r (x y : float) : is_nan y = true -> (x <=? y)%float = false.
Proof.
  rewrite is_nan_spec, leb_spec. intros ->. unfold SFleb, SFcompare.
  now destruct (Prim2SF x).
Qed.

Lemma mul_nan_l (x y : float) : is_nan x = true -> is_nan (x * y) = true.
Proof. rewrite !is_nan_spec, mul_spec. intros ->. reflexivity. Qed.

(** [min] and [max] keep a first item that is NaN, and skip every later one. *)
Lemma min_nan_first (x : float) (l : list float) :
  is_nan x = true -> Py.min x l = x.
Proof.
  intros Hx. unfold Py.min. induction l as [| y l IH]; cbn [fold_left]; [reflexivity |].
  now rewrite (ltb_nan_r y x Hx).
Qed.

Lemma max_nan_first (x : float) (l : list float) :
  is_nan x = true -> Py.max x l = x.
Proof.
  intros Hx. unfold Py.max. induction l as [| y l IH]; cbn [fold_left]; [reflexivity |].
  now rewrite (ltb_nan_l x y Hx).
Qed.

Lemma min_skips_nan (x : float) (l : list float) :
  Py.min x l = Py.min x (filter (fun s => negb (is_nan s)) l).
Proof.
  unfold Py.min. revert x. induction l as [| y l IH]; intros x; cbn [filter fold_left];
    [reflexivity |].
  destruct (is_nan y) eqn:Hy; cbn [negb fold_left].
  - rewrite (ltb_nan_l y x Hy). apply IH.
  - apply IH.
Qed.

Lemma max_skips_nan (x : float) (l : list float) :
  Py.max x l = Py.max x (filter (fun s => negb (is_nan s)) l).
Proof.
  unfold Py.max. revert x. induction l as [| y l IH]; intros x; cbn [filter fold_left];
    [reflexivity |].
  destruct (is_nan y) eqn:Hy; cbn [negb fold_left].
  - rewrite (ltb_nan_r x y Hy). apply IH.
  - apply IH.
Qed.

(** Counting with a predicate that rejects NaN. *)
Lemma sum_bool_skips_nan (p : float -> bool) (l : list float) :
  (forall s, is_nan s = true -> p s = false) ->
  Py.sum_bool p l = Py.sum_bool p (filter (fun s => negb (is_nan s)) l).
Proof.
  intros Hp. rewrite !PyFacts.sum_bool_count. f_equal. f_equal.
  induction l as [| y l IH]; cbn [filter]; [reflexivity |].
  destruct (is_nan y) eqn:Hy; cbn [negb filter].
  - now rewrite (Hp y Hy).
  - destruct (p y); [now rewrite IH | exact IH].
Qed.

Lemma sum_bool_cons (p : float -> bool) (x : float) (l : list float) :
  Py.sum_bool p (x :: l) = (if p x then 1 else 0) + Py.sum_bool p l.
Proof. rewrite !PyFacts.sum_bool_count. cbn [filter]. destruct (p x); cbn [List.length]; lia. Qed.

Lemma sum_bool_none (p : float -> bool) (l : list float) :
  (forall s, In s l -> p s = false) -> Py.sum_bool p l = 0.
Proof.
  intros Hp. induction l as [| y l IH]; [reflexivity |].
  rewrite sum_bool_cons, (Hp y (or_introl eq_refl)), IH; [reflexivity |].
  intros s Hs. apply Hp. now right.
Qed.

Lemma sum_bool_all (p : float -> bool) (l : list float) :
  (forall s, In s l -> p s = true) -> Py.sum_bool p l = Py.len l.
Proof.
  intros Hp. induction l as [| y l IH]; [reflexivity |].
  rewrite sum_bool_cons, (Hp y (or_introl eq_refl)), IH.
  - unfold Py.len. cbn [List.length]. lia.
  - intros s Hs. apply Hp. now right.
Qed.

(** NaN spreads through a sum and a quotient. *)
Lemma add_nan_l (x y : float) : is_nan x = true -> is_nan (x + y) = true.
Proof. rewrite !is_nan_spec, add_spec. intros ->. reflexivity. Qed.

Lemma add_nan_r (x y : float) : is_nan y = true -> is_nan (x + y) = true.
Proof.
  rewrite !is_nan_spec, add_spec. intros ->. unfold SF64add, SFadd.
  now destruct (Prim2SF x).
Qed.

Lemma div_nan_l (x y : float) : is_nan x = true -> is_nan (x / y) = true.
Proof. rewrite !is_nan_spec, div_spec. intros ->. reflexivity. Qed.

Lemma sum_nan (l : list float) (x : float) :
  In x l -> is_nan x = true -> is_nan (Py.sum l) = true.
Proof.
  unfold Py.sum. generalize zero.
  assert (forall l acc, is_nan acc = true ->
            is_nan (fold_left (fun a item => (a + item)%float) l acc) = true) as Hkeep.
  { intros l0. induction l0 as [| y l0 IH]; intros acc Hacc; cbn [fold_left];
      [exact Hacc | apply IH; now apply add_nan_l]. }
  induction l as [| y l IH]; intros acc Hin Hx; [contradiction |].
  cbn [fold_left]. destruct Hin as [-> | Hin].
  - apply Hkeep. now apply add_nan_r.
  - now apply IH.
Qed.

End NanFacts.

(** ** The sign of a size *)

Module SizeFacts.
Import St App AppMore.

Lemma binary_round_aux_sign (m e : Z) (l : location) :
  binary_round_aux prec emax false m e l = S754_nan \/
  SFleb (S754_zero false) (binary_round_aux prec emax false m e l) = true.
Proof.
  unfold binary_round_aux.
  destruct (shr_fexp prec emax m e l) as [r1 e1].
  destruct (shr_fexp prec emax (round_nearest_even (shr_m r1) (loc_of_shr_record r1))
                     e1 loc_Exact) as [r2 e2].
  destruct (shr_m r2); [now right | | now left].
  destruct (e2 <=? emax - prec); now right.
Qed.

Lemma SFsqrt_sign (x : spec_float) :
  SF64sqrt x = S754_nan \/ SFleb (S754_zero false) (SF64sqrt x) = true.
Proof.
  unfold SF64sqrt, SFsqrt.
  destruct x as [s | [|] | | [|] m e].
  - right. reflexivity.
  - left. reflexivity.
  - right. reflexivity.
  - left. reflexivity.
  - left. reflexivity.
  - destruct (SFsqrt_core_binary prec emax (Z.pos m) e) as [[mz ez] lz].
    apply binary_round_aux_sign.
Qed.

(** A square root is NaN or at least zero. *)
Lemma sqrt_sign (x : float) :
  is_nan (sqrt x) = true \/ (0 <=? sqrt x)%float = true.
Proof.
  rewrite NanFacts.is_nan_spec, leb_spec, sqrt_spec.
  change (Prim2SF 0) with (S754_zero false). apply SFsqrt_sign.
Qed.

Lemma size_of_sign (cfg : config) (b : box) (s : float) :
  size_of cfg b = Py.Ok s -> is_nan s = true \/ (0 <=? s)%float = true.
Proof.
  rewrite LoopFacts.size_of_spec. unfold Spec.size_nm.
  destruct (Py.mul (Py.get (width b) (Py.Int 0)) (PIXEL_TO_NM cfg)) as [wn |];
    cbn; [| discriminate].
  destruct (Py.mul (Py.get (height b) (Py.Int 0)) (PIXEL_TO_NM cfg)) as [hn |];
    cbn; [| discriminate].
  destruct (Py.mul wn hn) as [[z | f] |]; cbn [Py.bind Py.np_sqrt];
    [| | discriminate].
  - match goal with |- context [if ?c then _ else _] => destruct c end;
      [| discriminate].
    intros H. injection H as <-. apply sqrt_sign.
  - intros H. injection H as <-. apply sqrt_sign.
Qed.

(** What the loop shows: one size line per box it measured, numbered from
    [i], in order; it never stops the script, and when it fails the lines of
    the boxes before the failing one have been shown. *)
Lemma size_calculation_lines (cfg : config) (bs : list box) :
  forall i acc,
  exists rows,
    trace (size_calculation cfg i bs acc) = size_lines i rows /\
    match result (size_calculation cfg i bs acc) with
    | Done sizes =>
        sizes = acc ++ map snd rows /\
        Forall2 (fun b row =>
                   exists width_nm height_nm,
                     box_size cfg b = Py.Ok (width_nm, height_nm, snd row) /\
                     Py.to_float width_nm = Py.Ok (fst (fst row)) /\
                     Py.to_float height_nm = Py.Ok (snd (fst row))) bs rows
    | Raised e => (List.length rows < List.length bs)%nat
    | Stopped => False
    end.
Proof.
  unfold trace, result.
  induction bs as [| b bs IH]; intros i acc; cbn [size_calculation].
  - exists []. cbn. split; [reflexivity |]. split; [now rewrite app_nil_r | constructor].
  - destruct (box_size cfg b) as [[[width_nm height_nm] size_nm] | e] eqn:Hb; cbn;
      [| exists []; cbn; split; [reflexivity | lia]].
    unfold format_f.
    destruct (Py.to_float width_nm) as [w | e] eqn:Hw; cbn;
      [| exists []; cbn; split; [reflexivity | lia]].
    destruct (Py.to_float height_nm) as [h | e] eqn:Hh; cbn;
      [| exists []; cbn; split; [reflexivity | lia]].
    destruct (IH (i + 1) (acc ++ [size_nm])) as (rows & Ht & Hr).
    destruct (size_calculation cfg (i + 1) bs (acc ++ [size_nm])) as [t' o].
    cbn [fst snd] in Ht, Hr.
    exists ((w, h, size_nm) :: rows). cbn [size_lines fst snd].
    destruct o as [sizes | | e]; cbn [fst snd].
    + destruct Hr as [-> Hall]. split; [now rewrite Ht |]. split.
      * cbn [map snd]. now rewrite <- app_assoc.
      * constructor; [| exact Hall]. exists width_nm, height_nm. cbn. auto.
    + contradiction.
    + split; [now rewrite Ht | cbn [List.length]; lia].
Qed.



Lemma size_lines_not_statistic (i : Z) (rows : list (float * float * float)) :
  Forall (fun ev => is_statistic ev = false) (size_lines i rows).
Proof.
  revert i. induction rows as [| [[w h] s] rows IH]; intros i; cbn; constructor;
    [reflexivity | apply IH].
Qed.

End SizeFacts.

(** ** The page as a whole *)

Module PageFacts.
Import St App SizeFacts AppMore.


(** The page after the summary lines: the loop's lines, then the
    statistics branch if the loop ran to its end. *)
Lemma results_trace (cfg : config) (data : detection) :
  results cfg data
  = match size_calculation cfg 1 (Py.get (boxes data) []) [] with
    | (t, Done sizes) =>
        (summary_lines data ++ t
           ++ trace (size_stats_and_graph (Py.get (total_count data) 0) sizes),
         Done tt)
    | (t, Stopped) => (summary_lines data ++ t, Stopped)
    | (t, Raised e) => (summary_lines data ++ t, Raised e)
    end.
Proof.
  unfold results, summary_lines. cbn.
  destruct (size_calculation cfg 1 (Py.get (boxes data) []) []) as [t [sizes | | e]];
    cbn; try reflexivity.
  destruct sizes as [| s rest]; reflexivity.
Qed.

Lemma summary_lines_plain (data : detection) (fig : figure) :
  ~ In (pyplot fig) (summary_lines data).
Proof. unfold summary_lines. cbn. intuition discriminate. Qed.

Lemma size_lines_plain (i : Z) (rows : list (float * float * float)) (fig : figure) :
  ~ In (pyplot fig) (size_lines i rows).
Proof.
  intros Hin. pose proof (size_lines_not_statistic i rows) as Hall.
  rewrite Forall_forall in Hall. specialize (Hall _ Hin). discriminate.
Qed.

(** The figure of the statistics branch. *)
Lemma stats_figure (total : Z) (sizes : list float) (fig : figure) :
  In (pyplot fig) (trace (size_stats_and_graph total sizes)) ->
  exists s rest, sizes = s :: rest /\
    fig = {| labels := ["Min Size"; "Average Size"; "Max Size"]%string;
             counts := [min_count (stats total s rest);
                        avg_count (stats total s rest);
                        max_count (stats total s rest)];
             ylabel := "Count";
             title := "Microplastic Size Distribution (Count-Based)";
             texts := [(0, min_count (stats total s rest));
                       (1, avg_count (stats total s rest));
                       (2, max_count (stats total s rest))] |}.
Proof.
  destruct sizes as [| s rest]; cbn.
  - intuition discriminate.
  - intros [H | [H | [H | [H | [H | []]]]]]; try discriminate.
    injection H as <-. now exists s, rest.
Qed.

(** Exchanging the dimensions of a box exchanges the two converted
    dimensions and keeps the size. *)
Lemma box_size_transpose (cfg : config) (b : box) :
  box_size cfg (transpose b)
  = match box_size cfg b with
    | Py.Ok (width_nm, height_nm, size_nm) => Py.Ok (height_nm, width_nm, size_nm)
    | Py.Raise e => box_size cfg (transpose b)
    end /\
  (forall e, box_size cfg b = Py.Raise e -> exists e', box_size cfg (transpose b) = Py.Raise e').
Proof.
  unfold box_size, transpose. cbn [width height].
  destruct (Py.mul (Py.get (width b) (Py.Int 0)) (PIXEL_TO_NM cfg)) as [wn | e1];
    destruct (Py.mul (Py.get (height b) (Py.Int 0)) (PIXEL_TO_NM cfg)) as [hn | e2];
    cbn [Py.bind].
  - rewrite (PyFacts.mul_comm hn wn).
    destruct (Py.mul wn hn) as [area | e3]; cbn [Py.bind].
    + destruct (Py.np_sqrt area) as [s | e4]; cbn [Py.bind].
      * split; [reflexivity | discriminate].
      * split; [reflexivity | intros e _; now exists e4].
    + split; [reflexivity | intros e _; now exists e3].
  - split; [reflexivity | intros e _; now exists e2].
  - split; [reflexivity | intros e _; now exists e1].
  - split; [reflexivity | intros e _; now exists e2].
Qed.

(** The sizes of a finished loop are NaN or at least zero. *)
Lemma sizes_sign (cfg : config) (bs : list box) :
  forall i acc t sizes,
    size_calculation cfg i bs acc = (t, Done sizes) ->
    Forall (fun s => is_nan s = true \/ (0 <=? s)%float = true) acc ->
    Forall (fun s => is_nan s = true \/ (0 <=? s)%float = true) sizes.
Proof.
  intros i acc t sizes Hrun Hacc.
  destruct (LoopFacts.size_calculation_done _ _ _ _ _ _ Hrun) as (new & -> & Hall).
  apply Forall_app. split; [exact Hacc |]. clear Hrun.
  induction Hall as [| b s bs' new Hbs Hall IH]; constructor; [| exact IH].
  exact (SizeFacts.size_of_sign cfg b s Hbs).
Qed.

Lemma size_calculation_transpose (cfg : config) (bs : list box) :
  forall i acc,
    same_sizes (result (size_calculation cfg i bs acc))
               (result (size_calculation cfg i (map transpose bs) acc)).
Proof.
  unfold result.
  induction bs as [| b bs IH]; intros i acc; cbn [map size_calculation].
  - reflexivity.
  - destruct (box_size_transpose cfg b) as [Hok Herr].
    destruct (box_size cfg b) as [[[wn hn] s] | e].
    + rewrite Hok. cbn. unfold format_f.
      destruct (Py.to_float wn) as [w |], (Py.to_float hn) as [h |]; cbn; trivial.
      specialize (IH (i + 1) (acc ++ [s])).
      destruct (size_calculation cfg (i + 1) bs (acc ++ [s])) as [t o].
      destruct (size_calculation cfg (i + 1) (map transpose bs) (acc ++ [s])) as [t' o'].
      cbn in *. destruct o, o'; cbn in *; trivial.
    + destruct (Herr e eq_refl) as [e' ->]. cbn. trivial.
Qed.

End PageFacts.

Import AppMore.





(** X3. When the [total_count] of a 200 answer is in the 64-bit range of
    the counts, the page draws the chart exactly when the endpoint answered
    200 and the size loop ran to its end with at least one size. *)
Theorem X3_chart_exactly_when_sizes (cfg : config) (post : request -> api_reply)
    (img_bytes : list Byte.byte) :
  (forall body data,
     post (detect_request cfg img_bytes) = Response 200 body data ->
     residual_fits (Py.get (total_count data) 0)
                   (Py.len (Py.get (boxes data) []))) ->
  (exists fig, In (pyplot fig) (trace (page cfg post (Some img_bytes)))) <->
  (exists body data t s rest,
     post (detect_request cfg img_bytes) = Response 200 body data /\
     size_calculation cfg 1 (Py.get (boxes data) []) [] = (t, Done (s :: rest))).
Proof.
  intros _.
  unfold page.
  destruct (post (detect_request cfg img_bytes)) as [| status_code body data].
  - split.
    + intros [fig Hin]. cbn in Hin. intuition discriminate.
    + intros (body & data & t & s & rest & Hreply & _). discriminate.
  - destruct (status_code =? 200) eqn:Hcode; cbn [negb].
    + apply Z.eqb_eq in Hcode. subst status_code.
      rewrite PageFacts.results_trace.
      destruct (SizeFacts.size_calculation_lines cfg (Py.get (boxes data) []) 1 [])
        as (rows & Ht & _).
      unfold trace in *.
      destruct (size_calculation cfg 1 (Py.get (boxes data) []) [])
        as [t o] eqn:Hloop. cbn [fst] in Ht. subst t.
      split.
      * intros [fig Hin].
        destruct o as [sizes | | e]; cbn in Hin;
          destruct Hin as [Hin | Hin]; try discriminate;
          repeat (destruct Hin as [Hin | Hin]; try discriminate);
          try (apply in_app_or in Hin; destruct Hin as [Hin | Hin]);
          try (now apply PageFacts.size_lines_plain in Hin).
        destruct (PageFacts.stats_figure _ _ _ Hin) as (s & rest & -> & _).
        now exists body, data, (size_lines 1 rows), s, rest.
      * intros (body' & data' & t' & s & rest & Hreply & Hrun).
        injection Hreply as <- <-. rewrite Hloop in Hrun. injection Hrun as _ ->.
        eexists. cbn. do 6 right. apply in_or_app. right.
        cbn. do 4 right. left. reflexivity.
    + split.
      * intros [fig Hin]. cbn in Hin. intuition discriminate.
      * intros (body' & data' & t & s & rest & Hreply & _).
        injection Hreply as -> _ _. discriminate.
Qed.

Lemma X3_chart_exactly_when_sizes_witness :
  (exists fig,
     In (pyplot fig)
        (trace (page app_config (fun _ => Response 200 "" identical_boxes)
                     (Some [])))) <->
  (exists body data t s rest,
     Response 200 "" identical_boxes = Response 200 body data /\
     size_calculation app_config 1 (Py.get (boxes data) []) []
     = (t, Done (s :: rest))).
Proof.
  apply (X3_chart_exactly_when_sizes app_config
           (fun _ => Response 200 "" identical_boxes) []).
  intros body data Hreply. injection Hreply as _ <-.
  unfold residual_fits. cbn. lia.
Defined.

(** X4. Whenever the page draws the chart for an answer whose
    [total_count] is in the 64-bit range of the counts, it has three bars
    labelled Min, Average and Max whose heights add up to that
    [total_count] (0 when the key is missing), whatever the number of boxes;
    the Min and Max bars lie between 0 and the number of boxes, the Average
    bar is the 64-bit residual, and each bar is annotated with its own
    height. *)
Theorem X4_bars_add_up_to_total_count (cfg : config) (data : detection)
    (fig : figure) :
  residual_fits (Py.get (total_count data) 0) (Py.len (Py.get (boxes data) [])) ->
  In (pyplot fig) (trace (results cfg data)) ->
  exists a b c,
    counts fig = [a; b; c] /\
    labels fig = ["Min Size"; "Average Size"; "Max Size"]%string /\
    texts fig = [(0, a); (1, b); (2, c)] /\
    a + b + c = Py.get (total_count data) 0 /\
    b = Spec.residual (Py.get (total_count data) 0) a c /\
    0 <= a <= Py.len (Py.get (boxes data) []) /\
    0 <= c <= Py.len (Py.get (boxes data) []).
Proof.
  intros Hfits.
  rewrite PageFacts.results_trace.
  destruct (SizeFacts.size_calculation_lines cfg (Py.get (boxes data) []) 1 [])
    as (rows & Ht & Hr).
  unfold trace, result in *.
  destruct (size_calculation cfg 1 (Py.get (boxes data) []) []) as [t o].
  cbn [fst snd] in Ht, Hr. subst t.
  intros Hin.
  destruct o as [sizes | | e]; cbn [fst] in Hin;
    apply in_app_or in Hin; destruct Hin as [Hin | Hin];
    try (now apply PageFacts.summary_lines_plain in Hin);
    try (now apply PageFacts.size_lines_plain in Hin).
  apply in_app_or in Hin. destruct Hin as [Hin | Hin];
    [now apply PageFacts.size_lines_plain in Hin |].
  destruct (PageFacts.stats_figure _ _ _ Hin) as (s & rest & -> & ->).
  destruct Hr as [Hsizes Hall]. cbn [app] in Hsizes.
  assert (Py.len (s :: rest) = Py.len (Py.get (boxes data) [])) as Hlen.
  { unfold Py.len. f_equal. rewrite Hsizes, length_map. symmetry.
    eapply Forall2_length; exact Hall. }
  rewrite <- Hlen in *.
  pose proof (SummaryFacts.sum_bool_bounds
                (fun x => (x <=? Py.min s rest * 1.10)%float) (s :: rest)) as Hmin.
  pose proof (SummaryFacts.sum_bool_bounds
                (fun x => (Py.max s rest * 0.90 <=? x)%float) (s :: rest)) as Hmax.
  eexists _, _, _. cbn [counts labels texts].
  unfold stats; cbn [min_count avg_count max_count].
  repeat split; try reflexivity; try lia.
  symmetry. eapply SummaryFacts.residual_exact; eassumption.
Qed.

Lemma X4_bars_add_up_to_total_count_witness :
  exists a b c,
    [3; -3; 3] = [a; b; c] /\
    ["Min Size"; "Average Size"; "Max Size"]%string
    = ["Min Size"; "Average Size"; "Max Size"]%string /\
    [(0, 3); (1, -3); (2, 3)] = [(0, a); (1, b); (2, c)] /\
    a + b + c = Py.get (total_count identical_boxes) 0 /\
    b = Spec.residual (Py.get (total_count identical_boxes) 0) a c /\
    0 <= a <= Py.len (Py.get (boxes identical_boxes) []) /\
    0 <= c <= Py.len (Py.get (boxes identical_boxes) []).
Proof.
  apply (X4_bars_add_up_to_total_count app_config identical_boxes
           {| labels := ["Min Size"; "Average Size"; "Max Size"]%string;
              counts := [3; -3; 3]; ylabel := "Count";
              title := "Microplastic Size Distribution (Count-Based)";
              texts := [(0, 3); (1, -3); (2, 3)] |}).
  - unfold residual_fits. cbn. lia.
  - vm_compute. do 12 right. left. reflexivity.
Defined.

(** X5. When the first size is NaN (a box whose two dimensions have
    opposite signs comes first), [min] and [max] both return it, both
    thresholds are NaN, no size is counted in either extreme bucket, and the
    Average bar is the whole [total_count], for a [total_count] that is a
    64-bit integer. *)
Theorem X5_nan_first_empties_buckets (total : Z) (s : float) (rest : list float) :
  is_nan s = true ->
  - 2 ^ 63 <= total < 2 ^ 63 ->
  let st := stats total s rest in
  is_nan (min_size st) = true /\ is_nan (max_size st) = true /\
  is_nan (min_thresh st) = true /\ is_nan (max_thresh st) = true /\
  min_count st = 0 /\ max_count st = 0 /\ avg_count st = total /\
  Spec.residual total (min_count st) (max_count st) = total.
Proof.
  intros Hs Htotal. cbn zeta. unfold stats;
    cbn [min_size max_size min_thresh max_thresh min_count max_count avg_count].
  rewrite (NanFacts.min_nan_first s rest Hs), (NanFacts.max_nan_first s rest Hs).
  pose proof (NanFacts.mul_nan_l s 1.10 Hs) as Hlo.
  pose proof (NanFacts.mul_nan_l s 0.90 Hs) as Hhi.
  assert (Py.sum_bool (fun x => (x <=? s * 1.10)%float) (s :: rest) = 0) as Hmin
    by (apply NanFacts.sum_bool_none; intros x _; now apply NanFacts.leb_nan_r).
  assert (Py.sum_bool (fun x => (s * 0.90 <=? x)%float) (s :: rest) = 0) as Hmax
    by (apply NanFacts.sum_bool_none; intros x _; now apply NanFacts.leb_nan_l).
  rewrite Hmin, Hmax. repeat split; auto; try lia.
  unfold Spec.residual. rewrite !Z.sub_0_r.
  rewrite (SummaryFacts.wrap_int64_small total Htotal).
  exact (SummaryFacts.wrap_int64_small total Htotal).
Qed.

Lemma X5_nan_first_empties_buckets_witness :
  let st := stats 2 (sqrt (-10000)) [100]%float in
  is_nan (min_size st) = true /\ is_nan (max_size st) = true /\
  is_nan (min_thresh st) = true /\ is_nan (max_thresh st) = true /\
  min_count st = 0 /\ max_count st = 0 /\ avg_count st = 2 /\
  Spec.residual 2 (min_count st) (max_count st) = 2.
Proof.
  apply (X5_nan_first_empties_buckets 2 (sqrt (-10000))%float [100]%float).
  - reflexivity.
  - lia.
Defined.

(** X6. A NaN size after the first one changes neither the least nor the
    greatest size, nor the thresholds, nor the Min and Max counts, nor the
    residual [avg_count]: these are what they are for the list without it,
    so that it is counted in no extreme bucket.  The mean is another
    matter: with any NaN among the sizes, [avg_size] is NaN. *)
Theorem X6_later_nan_sizes_are_skipped (total : Z) (s : float) (rest : list float) :
  let st := stats total s rest in
  let st' := stats total s (filter (fun x => negb (is_nan x)) rest) in
  min_size st = min_size st' /\ max_size st = max_size st' /\
  min_thresh st = min_thresh st' /\ max_thresh st = max_thresh st' /\
  min_count st = min_count st' /\ max_count st = max_count st' /\
  avg_count st = avg_count st' /\
  ((exists x, In x (s :: rest) /\ is_nan x = true) -> is_nan (avg_size st) = true).
Proof.
  cbn zeta. unfold stats;
    cbn [min_size max_size avg_size min_thresh max_thresh
         min_count max_count avg_count].
  rewrite <- (NanFacts.min_skips_nan s rest), <- (NanFacts.max_skips_nan s rest).
  set (lo := (Py.min s rest * 1.10)%float).
  set (hi := (Py.max s rest * 0.90)%float).
  assert (Py.sum_bool (fun x => (x <=? lo)%float) (s :: rest)
          = Py.sum_bool (fun x => (x <=? lo)%float)
              (s :: filter (fun x => negb (is_nan x)) rest)) as Hmin.
  { rewrite !NanFacts.sum_bool_cons. f_equal.
    apply NanFacts.sum_bool_skips_nan. intros x Hx. now apply NanFacts.leb_nan_l. }
  assert (Py.sum_bool (fun x => (hi <=? x)%float) (s :: rest)
          = Py.sum_bool (fun x => (hi <=? x)%float)
              (s :: filter (fun x => negb (is_nan x)) rest)) as Hmax.
  { rewrite !NanFacts.sum_bool_cons. f_equal.
    apply NanFacts.sum_bool_skips_nan. intros x Hx. now apply NanFacts.leb_nan_r. }
  rewrite Hmin, Hmax. repeat split; try reflexivity.
  intros (x & Hin & Hx). apply NanFacts.div_nan_l.
  exact (NanFacts.sum_nan (s :: rest) x Hin Hx).
Qed.

Lemma X6_later_nan_sizes_are_skipped_witness :
  let st := stats 3 100 [sqrt (-1); 300]%float in
  let st' := stats 3 100 [300]%float in
  min_size st = min_size st' /\ max_size st = max_size st' /\
  min_thresh st = min_thresh st' /\ max_thresh st = max_thresh st' /\
  min_count st = min_count st' /\ max_count st = max_count st' /\
  avg_count st = avg_count st' /\
  is_nan (avg_size st) = true /\ avg_size st' = 200%float.
Proof.
  destruct (X6_later_nan_sizes_are_skipped 3 100%float [sqrt (-1); 300]%float)
    as (H1 & H2 & H3 & H4 & H5 & H6 & H7 & H8).
  refine (conj H1 (conj H2 (conj H3 (conj H4 (conj H5 (conj H6 (conj H7
            (conj (H8 _) _)))))))).
  - exists (sqrt (-1))%float. split; [right; left; reflexivity | reflexivity].
  - reflexivity.
Defined.

(** X7. A size computed by the loop is never negative: it is NaN, or at
    least zero. *)
Theorem X7_sizes_are_nan_or_not_negative (cfg : config) (boxes : list box)
    (t : list ui_event) (sizes : list float) :
  size_calculation cfg 1 boxes [] = (t, Done sizes) ->
  Forall (fun s => is_nan s = true \/ (0 <=? s)%float = true) sizes.
Proof.
  intros Hrun. exact (PageFacts.sizes_sign cfg boxes 1 [] t sizes Hrun (Forall_nil _)).
Qed.

Lemma X7_sizes_are_nan_or_not_negative_witness :
  Forall (fun s => is_nan s = true \/ (0 <=? s)%float = true) [100; 200; 300]%float.
Proof.
  apply (X7_sizes_are_nan_or_not_negative app_config three_boxes
           (trace (size_calculation app_config 1 three_boxes []))).
  reflexivity.
Defined.

(** X8. When the loop has measured at least one box, no size is NaN and
    [total_count] is in the 64-bit range of the counts, the Min and the Max
    bucket each hold at least one size, so the Average bar is at most
    [total_count - 2]. *)
Theorem X8_average_bar_at_most_total_minus_two (cfg : config) (total : Z)
    (boxes : list box) (t : list ui_event) (sizes : list float) :
  boxes <> [] ->
  residual_fits total (Py.len boxes) ->
  size_calculation cfg 1 boxes [] = (t, Done sizes) ->
  Forall (fun s => is_nan s = false) sizes ->
  exists s rest,
    sizes = s :: rest /\
    1 <= min_count (stats total s rest) /\
    1 <= max_count (stats total s rest) /\
    avg_count (stats total s rest) <= total - 2 /\
    Spec.residual total (min_count (stats total s rest))
                  (max_count (stats total s rest)) <= total - 2.
Proof.
  intros Hne Hfits Hrun Hnan.
  pose proof (PageFacts.sizes_sign cfg boxes 1 [] t sizes Hrun (Forall_nil _)) as Hsign.
  destruct (LoopFacts.size_calculation_done _ _ _ _ _ _ Hrun) as (new & -> & Hall).
  cbn [app] in *.
  assert (Py.len new = Py.len boxes) as Hlen
    by (unfold Py.len; f_equal; symmetry; eapply Forall2_length; exact Hall).
  destruct Hall as [| b s bs rest Hbs Hall]; [congruence |].
  exists s, rest. split; [reflexivity |].
  assert (forall x, In x (s :: rest) -> (0 <=? x)%float = true) as Hpos.
  { intros x Hx. rewrite Forall_forall in Hsign, Hnan.
    destruct (Hsign x Hx) as [H | H]; [| exact H].
    rewrite (Hnan x Hx) in H. discriminate. }
  assert (1 <= min_count (stats total s rest)) as Hmin.
  { unfold stats; cbn [min_count].
    apply PyFacts.sum_bool_pos with (x := Py.min s rest); [apply PyFacts.min_In |].
    apply RoundingFacts.mul_1_10_ge, Hpos, PyFacts.min_In. }
  assert (1 <= max_count (stats total s rest)) as Hmax.
  { unfold stats; cbn [max_count].
    apply PyFacts.sum_bool_pos with (x := Py.max s rest); [apply PyFacts.max_In |].
    apply RoundingFacts.mul_0_90_le, Hpos, PyFacts.max_In. }
  split; [exact Hmin | split; [exact Hmax |]].
  unfold stats in *; cbn [min_count max_count avg_count] in *.
  split; [lia |].
  rewrite (SummaryFacts.residual_exact total (Py.len (b :: bs)));
    [lia | exact Hfits | rewrite <- Hlen; apply SummaryFacts.sum_bool_bounds
     | rewrite <- Hlen; apply SummaryFacts.sum_bool_bounds].
Qed.

Lemma X8_average_bar_at_most_total_minus_two_witness :
  exists s rest,
    [100; 200; 300]%float = s :: rest /\
    1 <= min_count (stats 3 s rest) /\
    1 <= max_count (stats 3 s rest) /\
    avg_count (stats 3 s rest) <= 3 - 2 /\
    Spec.residual 3 (min_count (stats 3 s rest)) (max_count (stats 3 s rest))
    <= 3 - 2.
Proof.
  apply (X8_average_bar_at_most_total_minus_two app_config 3 three_boxes
           (trace (size_calculation app_config 1 three_boxes []))).
  - discriminate.
  - unfold residual_fits. cbn. lia.
  - reflexivity.
  - repeat constructor.
Defined.

(** X9. When all the sizes are one and the same value [>= 0] (as every
    size of the loop that is not NaN is) and [total_count] is in the 64-bit
    range of the counts, every size is counted in the Min bucket and in the
    Max bucket, and the Average bar is [total_count] minus twice their
    number: with [total_count] equal to the number of sizes it is minus that
    number. *)
Theorem X9_equal_sizes_fill_both_buckets (total : Z) (s : float) (rest : list float) :
  (0 <=? s)%float = true ->
  Forall (fun x => x = s) rest ->
  residual_fits total (Py.len (s :: rest)) ->
  let st := stats total s rest in
  min_count st = Py.len (s :: rest) /\
  max_count st = Py.len (s :: rest) /\
  avg_count st = total - 2 * Py.len (s :: rest) /\
  Spec.residual total (min_count st) (max_count st) = total - 2 * Py.len (s :: rest) /\
  (total = Py.len (s :: rest) -> avg_count st = - Py.len (s :: rest) /\ avg_count st < 0).
Proof.
  intros Hs Hall Hfits. rewrite Forall_forall in Hall.
  assert (forall x, In x (s :: rest) -> x = s) as Heq
    by (intros x [<- | Hx]; [reflexivity | now apply Hall]).
  cbn zeta. unfold stats; cbn [min_count max_count avg_count].
  rewrite (Heq _ (PyFacts.min_In rest s)), (Heq _ (PyFacts.max_In rest s)).
  assert (Py.sum_bool (fun x => (x <=? s * 1.10)%float) (s :: rest) = Py.len (s :: rest))
    as Hmin.
  { apply NanFacts.sum_bool_all. intros x Hx. rewrite (Heq x Hx).
    now apply RoundingFacts.mul_1_10_ge. }
  assert (Py.sum_bool (fun x => (s * 0.90 <=? x)%float) (s :: rest) = Py.len (s :: rest))
    as Hmax.
  { apply NanFacts.sum_bool_all. intros x Hx. rewrite (Heq x Hx).
    now apply RoundingFacts.mul_0_90_le. }
  rewrite Hmin, Hmax.
  assert (1 <= Py.len (s :: rest)) by (unfold Py.len; cbn [List.length]; lia).
  repeat split; try lia.
  rewrite (SummaryFacts.residual_exact total (Py.len (s :: rest))); [lia | exact Hfits | lia | lia].
Qed.

Lemma X9_equal_sizes_fill_both_buckets_witness :
  let st := stats 3 100 [100; 100]%float in
  min_count st = Py.len [100; 100; 100]%float /\
  max_count st = Py.len [100; 100; 100]%float /\
  avg_count st = 3 - 2 * Py.len [100; 100; 100]%float /\
  Spec.residual 3 (min_count st) (max_count st)
  = 3 - 2 * Py.len [100; 100; 100]%float /\
  (3 = Py.len [100; 100; 100]%float ->
   avg_count st = - Py.len [100; 100; 100]%float /\ avg_count st < 0).
Proof.
  apply (X9_equal_sizes_fill_both_buckets 3 100%float [100; 100]%float).
  - reflexivity.
  - repeat constructor.
  - unfold residual_fits. cbn. lia.
Defined.

(** X10. Exchanging width and height in every box of the answer leaves the
    statistics unchanged: the same sizes are computed, or the loop fails in
    both cases. *)
Theorem X10_transposed_boxes_same_statistics (cfg : config) (data : detection) :
  summary cfg (transposed data) = summary cfg data /\
  same_sizes
    (result (size_calculation cfg 1 (Py.get (boxes data) []) []))
    (result (size_calculation cfg 1 (Py.get (boxes (transposed data)) []) [])).
Proof.
  assert (Py.get (boxes (transposed data)) []
          = map transpose (Py.get (boxes data) [])) as Hboxes
    by (unfold transposed; cbn; now destruct (boxes data)).
  pose proof (PageFacts.size_calculation_transpose cfg (Py.get (boxes data) []) 1 [])
    as Hsame.
  unfold summary. rewrite Hboxes. split; [| exact Hsame].
  unfold result in Hsame.
  destruct (size_calculation cfg 1 (Py.get (boxes data) []) []) as [t o].
  destruct (size_calculation cfg 1 (map transpose (Py.get (boxes data) [])) [])
    as [t' o'].
  cbn [snd] in Hsame.
  destruct o as [a | | e], o' as [b | | e']; cbn in Hsame; try contradiction;
    try reflexivity.
  subst b. reflexivity.
Qed.

(** ** The input widgets *)

Module InputFacts.
Import Input.

Lemma insert_In (x y : string) (l : list string) :
  In y (insert x l) <-> y = x \/ In y l.
Proof.
  induction l as [| z l IH]; cbn.
  - intuition.
  - destruct (String.leb x z); cbn; [intuition | rewrite IH; intuition].
Qed.

(** Sorting keeps the names. *)
Lemma sorted_In (y : string) (names : list string) :
  In y (sorted names) <-> In y names.
Proof.
  unfold sorted. induction names as [| x names IH]; cbn; [reflexivity |].
  rewrite insert_In, IH. intuition.
Qed.

(** The select box returns one of its options. *)
Lemma select_In (w : world) (options : list string) (name : string) :
  select w options = Some name -> In name options.
Proof.
  unfold select. destruct (nth_error options (chosen_option w)) as [x |] eqn:Hn.
  - intros H. injection H as <-. eapply nth_error_In; exact Hn.
  - destruct options as [| x options]; cbn; [discriminate |].
    intros H. injection H as <-. now left.
Qed.

End InputFacts.

Import Input.
#[local] Open Scope string_scope.

(** X11. In example mode on a machine without the example folder, the
    script shows the header and the error "Example_images folder not found.",
    offers no select box, produces no image bytes, and the page below shows
    nothing, whatever the detection endpoint would answer. *)
Theorem X11_missing_example_folder (cfg : App.config) (w : world)
    (post : App.request -> App.api_reply) :
  chosen_mode w = "Use Example Image" ->
  path_exists w (App.EXAMPLE_DIR cfg) = false ->
  app cfg w post
  = Ran (header ++ [error "Example_images folder not found."]) None ([], St.Done tt).
Proof.
  intros Hmode Hpath. unfold app, input_section. rewrite Hmode, Hpath. reflexivity.
Qed.

Lemma X11_missing_example_folder_witness :
  app App.app_config no_folder (fun _ => App.ConnectionFailed)
  = Ran (header ++ [error "Example_images folder not found."]) None ([], St.Done tt).
Proof.
  apply (X11_missing_example_folder App.app_config no_folder); reflexivity.
Defined.

(** X12. The image bytes that reach the detection request are: in camera
    mode, the whole captured buffer; in example mode, the content of the
    file of the example folder picked in the select box, which is one of the
    names the folder lists; in any other mode, what decoding left unread of
    the uploaded file.  In each case only when the image decodes; and these
    are the only runs that produce image bytes. *)
Theorem X12_bytes_that_reach_the_detector (cfg : App.config) (w : world)
    (bytes : list Byte.byte) :
  snd (input_section cfg w) = Got (Some bytes) <->
  (chosen_mode w = "Capture from Camera" /\
   captured w = Some bytes /\ decodes w bytes = true) \/
  (chosen_mode w = "Use Example Image" /\
   path_exists w (App.EXAMPLE_DIR cfg) = true /\
   exists names selected,
     listdir w (App.EXAMPLE_DIR cfg) = Some names /\
     select w (sorted names) = Some selected /\
     In selected names /\
     read_file w (os_path_join (App.EXAMPLE_DIR cfg) selected) = Some bytes /\
     decodes w bytes = true) \/
  (chosen_mode w <> "Capture from Camera" /\
   chosen_mode w <> "Use Example Image" /\
   exists buffer,
     uploaded w = Some buffer /\ decodes w buffer = true /\
     bytes = unread_after_decoding w buffer).
Proof.
  unfold input_section, image_open, open_file.
  destruct (String.eqb_spec (chosen_mode w) "Capture from Camera") as [Hcam | Hcam].
  - destruct (captured w) as [buffer |] eqn:Hcap; cbn.
    + destruct (decodes w buffer) eqn:Hdec; cbn.
      * split.
        -- intros H. injection H as <-. left. auto.
        -- intros [(_ & H & _) | [(Hex & _) | (Hn & _)]];
             [now injection H as <- | rewrite Hcam in Hex; discriminate | contradiction].
      * split; [discriminate |].
        intros [(_ & H & Hd) | [(Hex & _) | (Hn & _)]];
          [injection H as <-; congruence | rewrite Hcam in Hex; discriminate
          | contradiction].
    + split; [discriminate |].
      intros [(_ & H & _) | [(Hex & _) | (Hn & _)]];
        [discriminate | rewrite Hcam in Hex; discriminate | contradiction].
  - destruct (String.eqb_spec (chosen_mode w) "Use Example Image") as [Hex | Hex].
    + destruct (path_exists w (App.EXAMPLE_DIR cfg)) eqn:Hpath; cbn.
      * destruct (listdir w (App.EXAMPLE_DIR cfg)) as [names |] eqn:Hls; cbn.
        -- destruct (select w (sorted names)) as [selected |] eqn:Hsel; cbn.
           ++ destruct (read_file w (os_path_join (App.EXAMPLE_DIR cfg) selected))
                as [data |] eqn:Hread; cbn.
              ** destruct (decodes w data) eqn:Hdec; cbn.
                 --- split.
                     +++ intros H. injection H as <-. right. left.
                         repeat split; auto. exists names, selected.
                         repeat split; auto.
                         apply InputFacts.sorted_In.
                         eapply InputFacts.select_In; exact Hsel.
                     +++ intros [(Hc & _) | [(_ & _ & ns & sel & Hl & Hs & _ & Hr & _)
                                            | (_ & Hn & _)]];
                           [contradiction | | contradiction].
                         congruence.
                 --- split; [discriminate |].
                     intros [(Hc & _) | [(_ & _ & ns & sel & Hl & Hs & _ & Hr & Hd)
                                        | (_ & Hn & _)]];
                       [contradiction | | contradiction].
                     congruence.
              ** split; [discriminate |].
                 intros [(Hc & _) | [(_ & _ & ns & sel & Hl & Hs & _ & Hr & Hd)
                                    | (_ & Hn & _)]];
                   [contradiction | | contradiction].
                 congruence.
           ++ split; [discriminate |].
              intros [(Hc & _) | [(_ & _ & ns & sel & Hl & Hs & _)
                                 | (_ & Hn & _)]];
                [contradiction | | contradiction].
              congruence.
        -- split; [discriminate |].
           intros [(Hc & _) | [(_ & _ & ns & sel & Hl & _) | (_ & Hn & _)]];
             [contradiction | | contradiction].
           congruence.
      * split; [discriminate |].
        intros [(Hc & _) | [(_ & Hp & _) | (_ & Hn & _)]];
          [contradiction | discriminate | contradiction].
    + destruct (uploaded w) as [buffer |] eqn:Hup; cbn.
      * destruct (decodes w buffer) eqn:Hdec; cbn.
        -- split.
           ++ intros H. injection H as <-. right. right.
              repeat split; auto. now exists buffer.
           ++ intros [(Hc & _) | [(He & _) | (_ & _ & b & Hb & _ & ->)]];
                [contradiction | contradiction |].
              congruence.
        -- split; [discriminate |].
           intros [(Hc & _) | [(He & _) | (_ & _ & b & Hb & Hd & _)]];
             [contradiction | contradiction |].
           congruence.
      * split; [discriminate |].
        intros [(Hc & _) | [(He & _) | (_ & _ & b & Hb & _)]];
          [contradiction | contradiction | discriminate].
Qed.

(** X13. An image that does not decode stops the script before the
    detection request: in camera mode and in upload mode the run ends with
    the decoding error, no image is shown, and the page below never runs. *)
Theorem X13_undecodable_image_stops_the_script (cfg : App.config) (w : world)
    (post : App.request -> App.api_reply) (buffer : list Byte.byte) :
  (chosen_mode w = "Capture from Camera" /\ captured w = Some buffer) \/
  (chosen_mode w <> "Capture from Camera" /\
   chosen_mode w <> "Use Example Image" /\ uploaded w = Some buffer) ->
  decodes w buffer = false ->
  exists widget,
    app cfg w post = InputFailed (header ++ [widget]) UnidentifiedImageError /\
    (forall caption, widget <> image caption).
Proof.
  intros Hmode Hdec. unfold app, input_section, image_open.
  destruct Hmode as [(Hcam & Hcap) | (Hcam & Hex & Hup)].
  - rewrite Hcam, Hcap. cbn. rewrite Hdec. cbn.
    eexists. split; [reflexivity | discriminate].
  - apply String.eqb_neq in Hcam, Hex. rewrite Hcam, Hex, Hup. cbn.
    rewrite Hdec. cbn. eexists. split; [reflexivity | discriminate].
Qed.

Lemma X13_undecodable_image_stops_the_script_witness :
  exists widget,
    app App.app_config bad_capture (fun _ => App.ConnectionFailed)
    = InputFailed (header ++ [widget]) UnidentifiedImageError /\
    (forall caption, widget <> image caption).
Proof.
  apply (X13_undecodable_image_stops_the_script App.app_config bad_capture
           (fun _ => App.ConnectionFailed) [Byte.x00]).
  - left. split; reflexivity.
  - reflexivity.
Defined.

Lemma X12_bytes_that_reach_the_detector_witness :
  (chosen_mode two_examples = "Capture from Camera" /\
   captured two_examples = Some [Byte.x42] /\ decodes two_examples [Byte.x42] = true) \/
  (chosen_mode two_examples = "Use Example Image" /\
   path_exists two_examples (App.EXAMPLE_DIR App.app_config) = true /\
   exists names selected,
     listdir two_examples (App.EXAMPLE_DIR App.app_config) = Some names /\
     select two_examples (sorted names) = Some selected /\
     In selected names /\
     read_file two_examples (os_path_join (App.EXAMPLE_DIR App.app_config) selected)
     = Some [Byte.x42] /\
     decodes two_examples [Byte.x42] = true) \/
  (chosen_mode two_examples <> "Capture from Camera" /\
   chosen_mode two_examples <> "Use Example Image" /\
   exists buffer,
     uploaded two_examples = Some buffer /\ decodes two_examples buffer = true /\
     [Byte.x42] = unread_after_decoding two_examples buffer).
Proof.
  apply (proj1 (X12_bytes_that_reach_the_detector App.app_config two_examples
                  [Byte.x42])).
  reflexivity.
Defined.
